(** * The consensus bot: proposal registry and free-funding transactions

    A shallow embedding of [bot/utils/proposal_utils.py] and
    [bot/transact.py].  Python functions become computations in a state and
    exception monad; the module-level dictionary [proposals] and the rows the
    persistence layer holds are fields of an explicit state; every call to a
    collaborator outside the two files (the chat platform, the persistence
    layer, the logger) is recorded in a trace, and whether such a call raises
    is decided by an environment passed to the computation. *)

From Stdlib Require Import ZArith PrimFloat Uint63.
From stdpp Require Import base option list gmap strings.

Open Scope Z_scope.

(** ** Python values

    The fields of an ORM object are dynamically typed, and the validation
    functions inspect their run-time type.  [value] has one constructor for
    each type the checks distinguish; floats do not occur among them. *)

Inductive value :=
| VNone
| VBool (b : bool)
| VInt (n : Z)
| VStr (s : string)
| VDatetime (t : Z)
| VUser (id : Z)
| VList (xs : list string)
| VInstrumentedList (xs : list string).

#[global] Instance value_eq_dec : EqDecision value.
Proof. solve_decision. Defined.

(** [isinstance(v, int)]: [bool] is a subclass of [int]. *)
Definition is_int (v : value) : bool :=
  match v with VInt _ | VBool _ => true | _ => false end.

Definition is_bool (v : value) : bool :=
  match v with VBool _ => true | _ => false end.

Definition is_str (v : value) : bool :=
  match v with VStr _ => true | _ => false end.

Definition is_datetime (v : value) : bool :=
  match v with VDatetime _ => true | _ => false end.

(** [isinstance(v, (discord.User, str, int))] *)
Definition is_user_str_int (v : value) : bool :=
  match v with VUser _ | VStr _ | VInt _ | VBool _ => true | _ => false end.

Definition is_InstrumentedList (v : value) : bool :=
  match v with VInstrumentedList _ => true | _ => false end.

(** Truth value of an object, as [if v:] tests it. *)
Definition truthy (v : value) : bool :=
  match v with
  | VNone => false
  | VBool b => b
  | VInt n => negb (Z.eqb n 0)
  | VStr s => negb (String.eqb s "")
  | VDatetime _ | VUser _ => true
  | VList xs | VInstrumentedList xs => negb (Nat.eqb (length xs) 0)
  end.

(** Dictionary keys are compared with [==], under which [True == 1] and
    [False == 0]. *)
Definition key_norm (v : value) : value :=
  match v with VBool b => VInt (Z.b2z b) | _ => v end.

Definition py_eq (a b : value) : bool := bool_decide (key_norm a = key_norm b).

(** Lists cannot be hashed: looking one up in a dictionary raises
    [TypeError]. *)
Definition hashable (v : value) : bool :=
  match v with VList _ | VInstrumentedList _ => false | _ => true end.

(** ** Exceptions, results, the monad *)

Inductive exn :=
| ValueError (msg : string) (arg : value)
| TypeError (msg : string)
| Exception (msg : string)
| ExternalError (what : string).

#[global] Instance exn_eq_dec : EqDecision exn.
Proof. solve_decision. Defined.

Inductive result (A : Type) :=
| Ok (a : A)
| Raise (e : exn).
Arguments Ok {A} a.
Arguments Raise {A} e.

(** A computation reads and writes a state [S]; an exception keeps the state
    reached when it was raised. *)
Definition M (S A : Type) : Type := S → result A * S.

Section monad.
Context {S : Type}.

Definition ret {A} (a : A) : M S A := λ s, (Ok a, s).

Definition bind {A B} (c : M S A) (k : A → M S B) : M S B :=
  λ s, match c s with
       | (Ok a, s') => k a s'
       | (Raise e, s') => (Raise e, s')
       end.

Definition raise {A} (e : exn) : M S A := λ s, (Raise e, s).

Definition gets {A} (f : S → A) : M S A := λ s, (Ok (f s), s).

Definition modify (f : S → S) : M S unit := λ s, (Ok tt, f s).

(** [try: c  except Exception as e: h e] *)
Definition try_except {A} (c : M S A) (h : exn → M S A) : M S A :=
  λ s, match c s with
       | (Ok a, s') => (Ok a, s')
       | (Raise e, s') => h e s'
       end.

(** An awaited call to a collaborator: it raises when the environment says
    so, and otherwise has the effect [eff] on the state. *)
Definition call (outcome : option exn) (eff : S → S) : M S unit :=
  match outcome with
  | Some e => raise e
  | None => modify eff
  end.
End monad.

Notation "x <- c ;; k" := (bind c (λ x, k))
  (at level 100, c at next level, right associativity, only parsing).
Notation "c ;;; k" := (bind c (λ _, k))
  (at level 100, right associativity, only parsing).

Inductive level := Debug | Info | Critical.

#[global] Instance level_eq_dec : EqDecision level.
Proof. solve_decision. Defined.

(** * bot/utils/proposal_utils.py *)

Module proposal_utils.

(** [bot.config.schemas.Voters] *)
Record Voters := {
  voter_user_id : Z;
  voter_voting_message_id : Z;
  voter_value : Z
}.

#[global] Instance Voters_eq_dec : EqDecision Voters.
Proof. solve_decision. Defined.

(** [bot.config.schemas.Proposals]: the attributes the module reads. *)
Record Proposals := {
  message_id : value;
  channel_id : value;
  author_id : value;
  voting_message_id : value;
  description : value;
  not_financial : value;
  submitted_at : value;
  closed_at : value;
  bot_response_message_id : value;
  threshold_negative : value;
  finance_recipients : value;
  voters : list Voters
}.

#[global] Instance Proposals_eq_dec : EqDecision Proposals.
Proof. solve_decision. Defined.

(** *** The dictionary [proposals]

    A Python [dict] keeps its entries in insertion order; assigning to a key
    that is present replaces the value where it stands. *)
Definition dict := list (value * Proposals).

Fixpoint dict_get (k : value) (d : dict) : option Proposals :=
  match d with
  | [] => None
  | (k', p) :: d' => if py_eq k k' then Some p else dict_get k d'
  end.

(** [d[k] = p] *)
Fixpoint dict_set (k : value) (p : Proposals) (d : dict) : dict :=
  match d with
  | [] => [(k, p)]
  | (k', p') :: d' =>
      if py_eq k k' then (k', p) :: d' else (k', p') :: dict_set k p d'
  end.

(** [del d[k]] *)
Fixpoint dict_del (k : value) (d : dict) : dict :=
  match d with
  | [] => []
  | (k', p') :: d' =>
      if py_eq k k' then dict_del k d' else (k', p') :: dict_del k d'
  end.

(** *** Collaborators *)

Inductive event :=
| Log (lvl : level) (msg : string)
| DbAdd (p : Proposals)
| DbDelete (p : Proposals).

(** A handle on the persistence layer ([bot.utils.db_utils.DBUtil], not part
    of the two files): its truth value, and for each awaited operation the
    exception it raises, if any. *)
Record DBUtil := {
  db_truthy : bool;
  add_raises : Proposals → option exn;
  delete_raises : Proposals → option exn
}.

(** The module state: the global [proposals] and the trace of calls made to
    the logger and the persistence layer. *)
Record state := {
  proposals : dict;
  trace : list event
}.

Definition emit (ev : event) (s : state) : state :=
  {| proposals := proposals s; trace := trace s ++ [ev] |}.

Definition set_proposals (f : dict → dict) (s : state) : state :=
  {| proposals := f (proposals s); trace := trace s |}.

Definition log (lvl : level) (msg : string) : M state unit :=
  modify (emit (Log lvl msg)).

(** [k in proposals] followed by [proposals[k]] *)
Definition lookup (k : value) : M state (option Proposals) :=
  if hashable k then gets (λ s, dict_get k (proposals s))
  else raise (TypeError "unhashable type").

(** *** The functions *)

Inductive found :=
| One (v : Voters)
| Several (vs : list Voters).

Definition voter_matches (user_id voting_message_id : Z) (v : Voters) : bool :=
  Z.eqb (voter_user_id v) user_id && Z.eqb (voter_voting_message_id v) voting_message_id.

(** The two nested [for] loops of [find_matching_voter], appending to
    [voters_found]. *)
Definition scan_voters (user_id voting_message_id : Z)
    (voters_found : list Voters) (vs : list Voters) : list Voters :=
  foldl (λ acc v, if voter_matches user_id voting_message_id v
                  then acc ++ [v] else acc)
        voters_found vs.

Definition scan_proposals (user_id voting_message_id : Z) (d : dict) : list Voters :=
  foldl (λ acc entry, scan_voters user_id voting_message_id acc (voters (snd entry)))
        [] d.

Definition find_matching_voter (user_id voting_message_id : Z) (s : state) : found :=
  let voters_found := scan_proposals user_id voting_message_id (proposals s) in
  match voters_found with
  | [v] => One v
  | _ => Several voters_found
  end.

Definition get_proposal (voting_message_id : value) : M state Proposals :=
  entry <- lookup voting_message_id ;;
  match entry with
  | Some p => ret p
  | None =>
      log Critical "Unable to get the proposal {voting_message_id} - it couldn't be found in the list of active proposals." ;;;
      raise (ValueError "Invalid proposal ID" voting_message_id)
  end.

Definition remove_proposal (voting_message_id : value) (db : DBUtil) : M state unit :=
  entry <- lookup voting_message_id ;;
  match entry with
  | Some p =>
      log Info "Removing data: %s" ;;;
      call (delete_raises db p) (emit (DbDelete p)) ;;;
      modify (set_proposals (dict_del voting_message_id))
  | None =>
      log Critical "Unable to remove the proposal {voting_message_id} - it couldn't be found in the list of active proposals." ;;;
      raise (ValueError "Invalid proposal ID" voting_message_id)
  end.

Definition check (ok : bool) (msg : string) (arg : value) : M state unit :=
  if ok then ret tt else raise (ValueError msg arg).

Definition validate_grantless_proposal (new_proposal : Proposals) : M state unit :=
  check (is_int (message_id new_proposal))
        "message_id should be an int" (message_id new_proposal) ;;;
  check (is_int (channel_id new_proposal))
        "channel_id should be an int" (channel_id new_proposal) ;;;
  check (is_user_str_int (author_id new_proposal))
        "author should be discord.User or str or int" (author_id new_proposal) ;;;
  check (is_int (voting_message_id new_proposal))
        "voting_message_id should be an int" (voting_message_id new_proposal) ;;;
  check (is_str (description new_proposal))
        "description should be a string" (description new_proposal) ;;;
  check (is_bool (not_financial new_proposal))
        "not_financial should be bool" (not_financial new_proposal) ;;;
  check (is_datetime (submitted_at new_proposal))
        "submitted_at should be datetime" (submitted_at new_proposal) ;;;
  check (is_datetime (closed_at new_proposal))
        "closed_at should be datetime" (closed_at new_proposal) ;;;
  check (is_int (bot_response_message_id new_proposal))
        "bot_response_message_id should be an int" (bot_response_message_id new_proposal) ;;;
  check (is_int (threshold_negative new_proposal))
        "threshold should be an int" (threshold_negative new_proposal).

Definition validate_proposal_with_grant (new_grant_proposal : Proposals) : M state unit :=
  validate_grantless_proposal new_grant_proposal ;;;
  check (is_InstrumentedList (finance_recipients new_grant_proposal))
        "finance_recipients should be InstrumentedList"
        (finance_recipients new_grant_proposal).

(** [@dispatch(Proposals)] *)
Definition add_proposal (new_proposal : Proposals) : M state unit :=
  (if truthy (not_financial new_proposal)
   then validate_grantless_proposal new_proposal
   else validate_proposal_with_grant new_proposal) ;;;
  modify (set_proposals (dict_set (voting_message_id new_proposal) new_proposal)) ;;;
  log Info "Added proposal with voting_message_id=%s".

(** [@dispatch(Proposals, DBUtil)] *)
Definition add_proposal_db (new_proposal : Proposals) (db : DBUtil) : M state unit :=
  add_proposal new_proposal ;;;
  if db_truthy db then
    call (add_raises db new_proposal) (emit (DbAdd new_proposal)) ;;;
    log Info "Inserted proposal into DB: %s"
  else
    raise (Exception "Incorrect DB identifier was given.").

(** [a == b] on values: [True == 1], and an [InstrumentedList], being a
    list, equals the plain list with the same items. *)
Definition eq_norm (v : value) : value :=
  match v with
  | VBool b => VInt (Z.b2z b)
  | VInstrumentedList xs => VList xs
  | _ => v
  end.

Definition py_equal (a b : value) : bool := bool_decide (eq_norm a = eq_norm b).


Definition is_relevant_proposal (voting_message_id : value) : M state bool :=
  check (is_int voting_message_id) "voting_message_id should be an int"
        voting_message_id ;;;
  entry <- lookup voting_message_id ;;
  ret (bool_decide (is_Some entry)).

Definition get_proposals_count (s : state) : nat := length (proposals s).

(** The [for] loop of [get_proposal_initiated_by] over [proposals.values()]. *)
Fixpoint first_initiated_by (message_id' : value) (d : dict) : option Proposals :=
  match d with
  | [] => None
  | (_, proposal) :: d' =>
      if py_equal (message_id proposal) message_id' ||
         py_equal (bot_response_message_id proposal) message_id'
      then Some proposal
      else first_initiated_by message_id' d'
  end.

Definition get_proposal_initiated_by (message_id' : value) (s : state)
    : option Proposals :=
  match proposals s with
  | [] => None
  | d => first_initiated_by message_id' d
  end.

End proposal_utils.

(** * bot/transact.py *)

Module transact.

(** [discord.Message]: the attributes the module reads.  [author] is the
    author's mention string, [mentions] the users the platform resolved. *)
Record Message := {
  id : Z;
  content : string;
  author : string;
  mentions : list string;
  jump_url : string;
  channel : Z
}.

(** [commands.Context] *)
Record Context := { message : Message }.

(** [bot.config.schemas.FreeFundingTransaction] *)
Record FreeFundingTransaction := {
  tx_author : string;
  tx_mentions : string;
  tx_amount : float;
  tx_description : string;
  tx_submitted_at : Z
}.

(** The keyword arguments with which the template
    [GRANT_COMMAND_FREE_FUNDING_MESSAGE] is formatted. *)
Record GrantMessage := {
  gm_prefix : string;
  gm_grant_command : string;
  gm_mentions : string;
  gm_amount : string;
  gm_description : string;
  gm_author : string;
  gm_balance : string;
  gm_tips_url : string
}.

Inductive text :=
| Plain (s : string)
| Formatted (g : GrantMessage).

(** [bot.config.const]: the constants the module uses. *)
Record Const := {
  FREE_FUNDING_LIMIT_PERSON_PER_SEASON : float;
  REACTION_ON_TRANSACTION_FAILED : string;
  REACTION_ON_TRANSACTION_SUCCEED : string;
  GRANT_APPLY_CHANNEL_ID : Z;
  GRANT_APPLY_COMMAND_NAME : string;
  DISCORD_COMMAND_PREFIX : string;
  RESPONSIBLE_MENTION : string;
  FREE_FUNDING_MENTIONS_COLUMN_SEPARATOR : string;
  FREE_FUNDING_PAUSED_RESPONSE : string;
  FREE_FUNDING_PAUSED_RECOVERY_RESPONSE : string;
  ERROR_MESSAGE_INVALID_ROLE : string;
  ERROR_MESSAGE_FREE_FUNDING_INVALID_COMMAND_FORMAT : string
}.

(** Calls that reach the chat platform, the logger or a commit. *)
Inductive event :=
| Log (lvl : level) (msg : string)
| DbSave
| AddReaction (message_id : Z) (emoji : string)
| Reply (message_id : Z) (body : string)
| ChannelSend (channel_id : Z) (body : text)
| EditSuppress (channel_id : Z)
| SendFreeFundingBalance (message_id : Z).

(** The places of [transact.py] where a collaborator is called and may
    raise, named after what is called there. *)
Inductive site :=
| at_db_add                 (* await db.add(author_balance) *)
| at_react_rejected         (* add_reaction after a failed validation *)
| at_db_save                (* db.save() *)
| at_grant_send             (* channel.send(grant_message) *)
| at_grant_edit             (* message.edit(suppress=True) *)
| at_could_not_apply_send   (* ctx.message.channel.send("Could not apply grant...") *)
| at_history_add            (* db.add_free_transactions_history_item *)
| at_react_succeed          (* add_reaction after the history item *)
| at_paused_reply | at_paused_react
| at_recovery_reply | at_recovery_react
| at_role_reply | at_role_react
| at_send_balance           (* send_free_funding_balance(ctx) *)
| at_few_args_reply | at_few_args_react
| at_no_match_reply | at_no_match_react
| at_unexpected_reply.      (* ctx.message.reply in the outer handler *)

(** What the module's surroundings decide in one run of a command: which
    calls raise, what the validators of [bot.utils.validation] answer, what
    the library functions [re.search], [float] and [datetime.now] return,
    whether the flag file exists and whether a recovery is in progress.  The
    validators are taken as the stateless checks the specification describes:
    they do not touch balances or history. *)
Record Env := {
  raises : site → option exn;
  validate_free_transaction :
    Message → string → float → list string → float → string → result bool;
  validate_roles : string → result bool;
  fetch_message : Z → result Message;
  flag_file_exists : bool;
  is_recovery : bool;
  re_search : string → string → option (string * string * string);
  float_of_str : string → result float;
  get_amount_to_print : float → string;
  now : Z
}.

(** The state: the balance rows and the transaction history the persistence
    layer holds, and the trace of the other calls. *)
Record state := {
  balances : gmap string float;
  history : list FreeFundingTransaction;
  trace : list event
}.

Definition emit (ev : event) (s : state) : state :=
  {| balances := balances s; history := history s; trace := trace s ++ [ev] |}.

Definition set_balance (author : string) (b : float) (s : state) : state :=
  {| balances := <[author := b]> (balances s); history := history s;
     trace := trace s |}.

Definition add_history_item (t : FreeFundingTransaction) (s : state) : state :=
  {| balances := balances s; history := history s ++ [t]; trace := trace s |}.

Definition log (lvl : level) (msg : string) : M state unit :=
  modify (emit (Log lvl msg)).

Definition lift {A} (r : result A) : M state A :=
  match r with Ok a => ret a | Raise e => raise e end.

(** [len(mentions)] as the float by which [amount] is multiplied. *)
Definition float_of_len (n : nat) : float :=
  PrimFloat.of_uint63 (Uint63.of_Z (Z.of_nat n)).

(** [sep.join(xs)] *)
Fixpoint join (sep : string) (xs : list string) : string :=
  match xs with
  | [] => EmptyString
  | [x] => x
  | x :: rest => String.append x (String.append sep (join sep rest))
  end.

(** ASCII white space, as [str.split()] and [\s] see it. *)
Definition is_space (c : Ascii.ascii) : bool :=
  let n := Ascii.nat_of_ascii c in
  (Nat.leb 9 n && Nat.leb n 13) || (Nat.leb 28 n && Nat.leb n 32).

(** [s.split()]: the maximal runs of characters that are not white space.
    [word] holds the current run, reversed. *)
Fixpoint split_from (word : list Ascii.ascii) (s : string) : list string :=
  let flush rest :=
    match word with
    | [] => rest
    | _ => String.string_of_list_ascii (rev word) :: rest
    end in
  match s with
  | EmptyString => flush []
  | String c s' =>
      if is_space c then flush (split_from [] s') else split_from (c :: word) s'
  end.

Definition split (s : string) : list string := split_from [] s.

Section with_environment.
Variable const : Const.
Variable env : Env.

Definition send_transaction (ctx : Context) (original_message : Message)
    (mentions : list string) (amount : float) (description : string)
    : M state unit :=
  let author_mention := author (message ctx) in
  found <- gets (λ s, balances s !! author_mention) ;;
  author_balance <-
    match found with
    | Some b => ret b
    | None =>
        log Debug "Added free funding balance for author=%s" ;;;
        call (raises env at_db_add)
             (set_balance author_mention (FREE_FUNDING_LIMIT_PERSON_PER_SEASON const)) ;;;
        ret (FREE_FUNDING_LIMIT_PERSON_PER_SEASON const)
    end ;;
  valid <- lift (validate_free_transaction env original_message author_mention
                   author_balance mentions amount description) ;;
  if negb valid then
    call (raises env at_react_rejected)
         (emit (AddReaction (id (message ctx)) (REACTION_ON_TRANSACTION_FAILED const)))
  else
    let total := PrimFloat.mul amount (float_of_len (length mentions)) in
    let new_balance := PrimFloat.sub author_balance total in
    modify (set_balance author_mention new_balance) ;;;
    call (raises env at_db_save) (emit DbSave) ;;;
    let grant_message :=
      {| gm_prefix := DISCORD_COMMAND_PREFIX const;
         gm_grant_command := GRANT_APPLY_COMMAND_NAME const;
         gm_mentions := join " " mentions;
         gm_amount := get_amount_to_print env amount;
         gm_description := description;
         gm_author := author_mention;
         gm_balance := get_amount_to_print env new_balance;
         gm_tips_url := jump_url original_message |} in
    try_except
      (call (raises env at_grant_send)
            (emit (ChannelSend (GRANT_APPLY_CHANNEL_ID const) (Formatted grant_message))) ;;;
       call (raises env at_grant_edit)
            (emit (EditSuppress (GRANT_APPLY_CHANNEL_ID const))))
      (λ e,
       call (raises env at_could_not_apply_send)
            (emit (ChannelSend (channel (message ctx))
                     (Plain (String.append "Could not apply grant. cc "
                               (RESPONSIBLE_MENTION const))))) ;;;
       log Critical "An error occurred while sending grant message, message_id=%d" ;;;
       raise e) ;;;
    call (raises env at_history_add)
         (add_history_item
            {| tx_author := author_mention;
               tx_mentions := join (FREE_FUNDING_MENTIONS_COLUMN_SEPARATOR const) mentions;
               tx_amount := total;
               tx_description := description;
               tx_submitted_at := now env |}) ;;;
    call (raises env at_react_succeed)
         (emit (AddReaction (id (message ctx)) (REACTION_ON_TRANSACTION_SUCCEED const))) ;;;
    log Info "Successfully sent free funding. author=%s, remaining balance=%d, total_sum=%d, mentions=%s, message_id=%d".

(** The pattern given to [re.search], with the command prefix spliced in. *)
Definition command_pattern : string :=
  String.append "^"
    (String.append (DISCORD_COMMAND_PREFIX const)
       "\w+\s+((?:<@\d+>\s+)+)([\d\.]+)\s+([\w\W]+)$").

(** Reply with [body], add the failure reaction, log at level info. *)
Definition reject (reply_site react_site : site) (ctx : Context)
    (original_message : Message) (body msg : string) : M state unit :=
  call (raises env reply_site) (emit (Reply (id original_message) body)) ;;;
  call (raises env react_site)
       (emit (AddReaction (id (message ctx)) (REACTION_ON_TRANSACTION_FAILED const))) ;;;
  log Info msg.

Definition free_funding_transact_command (ctx : Context) (args : list string)
    : M state unit :=
  try_except
    (let message_content := content (message ctx) in
     log Debug "Transaction received: %s" ;;;
     original_message <- lift (fetch_message env (id (message ctx))) ;;
     if flag_file_exists env then
       reject at_paused_reply at_paused_react ctx original_message
         (FREE_FUNDING_PAUSED_RESPONSE const)
         "Rejecting the transaction from %s because a stopcock file is detected."
     else if is_recovery env then
       reject at_recovery_reply at_recovery_react ctx original_message
         (FREE_FUNDING_PAUSED_RECOVERY_RESPONSE const)
         "Rejecting the transaction from %s because recovery is in progress."
     else
       allowed <- lift (validate_roles env (author (message ctx))) ;;
       if negb allowed then
         reject at_role_reply at_role_react ctx original_message
           (ERROR_MESSAGE_INVALID_ROLE const)
           "Unauthorized user. message_id=%d"
       else if Nat.eqb (length args) 0 then
         call (raises env at_send_balance)
              (emit (SendFreeFundingBalance (id (message ctx))))
       else if Nat.ltb (length args) 3 then
         reject at_few_args_reply at_few_args_react ctx original_message
           (ERROR_MESSAGE_FREE_FUNDING_INVALID_COMMAND_FORMAT const)
           "Invalid command format. message_id=%d, invalid value=%s"
       else if negb (Nat.eqb (length (mentions original_message)) 0) then
         match re_search env command_pattern message_content with
         | None =>
             reject at_no_match_reply at_no_match_react ctx original_message
               (ERROR_MESSAGE_FREE_FUNDING_INVALID_COMMAND_FORMAT const)
               "Invalid command format. message_id=%d, invalid value=%s"
         | Some (group1, group2, group3) =>
             let mentions := split group1 in
             amount <- lift (float_of_str env group2) ;;
             let description := group3 in
             send_transaction ctx original_message mentions amount description
         end
       else ret tt)
    (λ e,
     try_except
       (call (raises env at_unexpected_reply)
             (emit (Reply (id (message ctx))
                      (String.append "An unexpected error occurred during transaction. cc "
                         (RESPONSIBLE_MENTION const)))))
       (λ _, log Critical "Unable to reply in the chat that a critical error has occurred.") ;;;
     log Critical "Unexpected error in %s during transaction, channel=%s, message=%s, user=%s").

End with_environment.

End transact.

(** * Vocabulary of the properties, and sample data *)

Module registry_spec.
Import proposal_utils.

(** The conjunction of the ten [isinstance] tests of
    [validate_grantless_proposal]. *)
Definition well_typed_grantless (p : Proposals) : bool :=
  is_int (message_id p) && is_int (channel_id p) &&
  is_user_str_int (author_id p) && is_int (voting_message_id p) &&
  is_str (description p) && is_bool (not_financial p) &&
  is_datetime (submitted_at p) && is_datetime (closed_at p) &&
  is_int (bot_response_message_id p) && is_int (threshold_negative p).

(** What [add_proposal] demands of a proposal before storing it. *)
Definition accepted (p : Proposals) : bool :=
  well_typed_grantless p &&
  (truthy (not_financial p) || is_InstrumentedList (finance_recipients p)).

Definition with_finance_recipients (fr : value) (p : Proposals) : Proposals :=
  {| message_id := message_id p; channel_id := channel_id p;
     author_id := author_id p; voting_message_id := voting_message_id p;
     description := description p; not_financial := not_financial p;
     submitted_at := submitted_at p; closed_at := closed_at p;
     bot_response_message_id := bot_response_message_id p;
     threshold_negative := threshold_negative p;
     finance_recipients := fr; voters := voters p |}.

(** Every voter of every registered proposal, in iteration order. *)
Definition all_voters (d : dict) : list Voters :=
  concat (map (λ entry, voters (snd entry)) d).

Definition matching_voters (user_id voting_message_id : Z) (d : dict) : list Voters :=
  List.filter (voter_matches user_id voting_message_id) (all_voters d).

Definition msg_not_removable : string :=
  "Unable to remove the proposal {voting_message_id} - it couldn't be found in the list of active proposals.".

Definition msg_not_gettable : string :=
  "Unable to get the proposal {voting_message_id} - it couldn't be found in the list of active proposals.".

Definition msg_added : string := "Added proposal with voting_message_id=%s".

(** Sample data. *)

Definition alice_yes : Voters :=
  {| voter_user_id := 11; voter_voting_message_id := 1001; voter_value := 1 |}.
Definition bob_no : Voters :=
  {| voter_user_id := 12; voter_voting_message_id := 1001; voter_value := 0 |}.
Definition carol_yes : Voters :=
  {| voter_user_id := 13; voter_voting_message_id := 1002; voter_value := 1 |}.

Definition grantless (vmid : Z) (vs : list Voters) : Proposals :=
  {| message_id := VInt 500; channel_id := VInt 70; author_id := VStr "<@11>";
     voting_message_id := VInt vmid; description := VStr "paint the fence";
     not_financial := VBool true; submitted_at := VDatetime 1700000000;
     closed_at := VDatetime 1700259200; bot_response_message_id := VInt 501;
     threshold_negative := VInt 3; finance_recipients := VNone; voters := vs |}.

Definition with_grant (vmid : Z) (fr : value) : Proposals :=
  {| message_id := VInt 600; channel_id := VInt 70; author_id := VInt 12;
     voting_message_id := VInt vmid; description := VStr "fund the fence";
     not_financial := VBool false; submitted_at := VDatetime 1700000000;
     closed_at := VDatetime 1700259200; bot_response_message_id := VInt 601;
     threshold_negative := VInt 3; finance_recipients := fr; voters := [] |}.

Definition one_proposal : state :=
  {| proposals := [(VInt 1001, grantless 1001 [alice_yes; bob_no])]; trace := [] |}.

Definition two_proposals : state :=
  {| proposals := [(VInt 1001, grantless 1001 [alice_yes; bob_no]);
                   (VInt 1002, grantless 1002 [carol_yes])];
     trace := [] |}.

(** A registry into which a second row for the same user and poll was
    injected. *)
Definition duplicated_vote : state :=
  {| proposals := [(VInt 1001, grantless 1001 [alice_yes; bob_no]);
                   (VInt 1002, grantless 1002 [carol_yes; alice_yes])];
     trace := [] |}.

Definition db_up : DBUtil :=
  {| db_truthy := true; add_raises := λ _, None; delete_raises := λ _, None |}.

Definition db_down : DBUtil :=
  {| db_truthy := true;
     add_raises := λ _, Some (ExternalError "database is locked");
     delete_raises := λ _, Some (ExternalError "database is locked") |}.

Definition db_falsy : DBUtil :=
  {| db_truthy := false; add_raises := λ _, None; delete_raises := λ _, None |}.

(** Unfold the monad in the goal. *)
Ltac run :=
  unfold bind, ret, raise, gets, modify, call, proposal_utils.log, check; simpl.

End registry_spec.

Module transact_spec.
Import transact.

(** The balance the transaction works on: the author's row, or the season
    limit with which a missing row is created. *)
Definition resolved_balance (const : Const) (author_mention : string) (s : state) : float :=
  default (FREE_FUNDING_LIMIT_PERSON_PER_SEASON const) (balances s !! author_mention).

(** [amount * len(mentions)] *)
Definition total_amount (amount : float) (mentions : list string) : float :=
  PrimFloat.mul amount (float_of_len (length mentions)).

(** The part of the trace a run has added to the [n] events before it. *)
Definition events_since (n : nat) (s : state) : list event := drop n (trace s).

Definition is_critical (ev : event) : bool :=
  match ev with Log Critical _ => true | _ => false end.

Definition is_reply (ev : event) : bool :=
  match ev with Reply _ _ => true | _ => false end.

Definition is_reaction (ev : event) : bool :=
  match ev with AddReaction _ _ => true | _ => false end.

Definition msg_grant_failed : string :=
  "An error occurred while sending grant message, message_id=%d".

Definition msg_received : string := "Transaction received: %s".

Definition msg_balance_added : string := "Added free funding balance for author=%s".

Definition msg_invalid_format : string :=
  "Invalid command format. message_id=%d, invalid value=%s".

(** Sample data. *)

Definition const0 : Const :=
  {| FREE_FUNDING_LIMIT_PERSON_PER_SEASON := 100%float;
     REACTION_ON_TRANSACTION_FAILED := ":x:";
     REACTION_ON_TRANSACTION_SUCCEED := ":white_check_mark:";
     GRANT_APPLY_CHANNEL_ID := 71;
     GRANT_APPLY_COMMAND_NAME := "grant";
     DISCORD_COMMAND_PREFIX := "!";
     RESPONSIBLE_MENTION := "<@9>";
     FREE_FUNDING_MENTIONS_COLUMN_SEPARATOR := ",";
     FREE_FUNDING_PAUSED_RESPONSE := "Free funding is paused.";
     FREE_FUNDING_PAUSED_RECOVERY_RESPONSE := "Recovery is in progress.";
     ERROR_MESSAGE_INVALID_ROLE := "You are not allowed to use this command.";
     ERROR_MESSAGE_FREE_FUNDING_INVALID_COMMAND_FORMAT := "Invalid command format." |}.

Definition tips_message : Message :=
  {| id := 900; content := "!tips <@2> 20 thanks"; author := "<@1>";
     mentions := ["<@2>"]; jump_url := "https://discord.test/channels/1/70/900";
     channel := 70 |}.

(** Three arguments, but nobody is mentioned. *)
Definition unaddressed_message : Message :=
  {| id := 901; content := "!tips hello 5 thanks"; author := "<@1>";
     mentions := []; jump_url := "https://discord.test/channels/1/70/901";
     channel := 70 |}.

Definition tips_ctx : Context := {| message := tips_message |}.
Definition unaddressed_ctx : Context := {| message := unaddressed_message |}.

(** A validator of the kind the specification describes: there are
    recipients, the description is not empty, and the balance covers the
    total. *)
Definition sample_validator (_ : Message) (_ : string) (balance : float)
    (mentions : list string) (amount : float) (description : string) : result bool :=
  Ok (negb (Nat.eqb (length mentions) 0) &&
      negb (String.eqb description "") &&
      PrimFloat.leb (total_amount amount mentions) balance).

Definition sample_search (_ content : string) : option (string * string * string) :=
  if String.eqb content "!tips <@2> 20 thanks"
  then Some ("<@2> ", "20", "thanks")
  else None.

Definition sample_float (s : string) : result float :=
  if String.eqb s "20" then Ok 20%float
  else Raise (ValueError "could not convert string to float" (VStr s)).

Definition env_with (fails : site → option exn) (fetched : Message) : Env :=
  {| raises := fails;
     validate_free_transaction := sample_validator;
     validate_roles := λ _, Ok true;
     fetch_message := λ _, Ok fetched;
     flag_file_exists := false;
     is_recovery := false;
     re_search := sample_search;
     float_of_str := sample_float;
     get_amount_to_print := λ _, "20";
     now := 1700000000 |}.

Definition nothing_fails (_ : site) : option exn := None.

(** The grant channel cannot be reached. *)
Definition grant_channel_down (x : site) : option exn :=
  match x with
  | at_grant_send => Some (ExternalError "403 Forbidden")
  | _ => None
  end.

(** The platform cannot be reached at all. *)
Definition platform_down (x : site) : option exn :=
  match x with
  | at_grant_send => Some (ExternalError "503 Service Unavailable (grant channel)")
  | at_could_not_apply_send => Some (ExternalError "503 Service Unavailable (reply)")
  | _ => None
  end.

Definition with_balance (b : float) : state :=
  {| balances := {[ "<@1>" := b ]}; history := []; trace := [] |}.

Definition no_rows : state := {| balances := ∅; history := []; trace := [] |}.

(** What a run logs when it has to create the author's balance row. *)
Definition creation_log (author_mention : string) (s : state) : list event :=
  match balances s !! author_mention with
  | Some _ => []
  | None => [Log Debug msg_balance_added]
  end.

(** The balance rows after the author's row has been looked up or created. *)
Definition balances_resolved (const : Const) (author_mention : string) (s : state)
    : gmap string float :=
  match balances s !! author_mention with
  | Some _ => balances s
  | None => <[author_mention := FREE_FUNDING_LIMIT_PERSON_PER_SEASON const]> (balances s)
  end.

(** Balance 100, one recipient, amount 20. *)
Definition thanks_run : result unit * state :=
  send_transaction const0 (env_with nothing_fails tips_message) tips_ctx
    tips_message ["<@2>"] 20%float "thanks" (with_balance 100%float).

(** Balance 10, one recipient, amount 20. *)
Definition overdrawn_run : result unit * state :=
  send_transaction const0 (env_with nothing_fails tips_message) tips_ctx
    tips_message ["<@2>"] 20%float "thanks" (with_balance 10%float).

(** An author without a balance row asks for more than the season limit. *)
Definition newcomer_rejected_run : result unit * state :=
  send_transaction const0 (env_with nothing_fails tips_message) tips_ctx
    tips_message ["<@2>"] 200%float "thanks" no_rows.

(** The debit is saved, then the grant channel refuses the message. *)
Definition grant_channel_down_run : result unit * state :=
  send_transaction const0 (env_with grant_channel_down tips_message) tips_ctx
    tips_message ["<@2>"] 20%float "thanks" (with_balance 100%float).

(** The debit is saved, then neither the grant channel nor the author's
    channel can be written to. *)
Definition platform_down_run : result unit * state :=
  send_transaction const0 (env_with platform_down tips_message) tips_ctx
    tips_message ["<@2>"] 20%float "thanks" (with_balance 100%float).

(** The command [!tips hello 5 thanks]: three arguments, nobody mentioned. *)
Definition unaddressed_run : result unit * state :=
  free_funding_transact_command const0 (env_with nothing_fails unaddressed_message)
    unaddressed_ctx ["hello"; "5"; "thanks"] (with_balance 100%float).

Ltac run_tx :=
  unfold bind, gets, ret, raise, modify, call, try_except, lift, log; simpl.

Tactic Notation "run_tx" "in" hyp(H) :=
  unfold bind, gets, ret, raise, modify, call, try_except, lift, log in H;
  simpl in H.

(** Split on whether the next collaborator call of the run [H] raises. *)
Ltac case_site H :=
  match type of H with
  | context [raises ?env ?x] =>
      destruct (raises env x) eqn:?; unfold raise, modify in H; simpl in H
  end.

(** Replace every call whose outcome is known by that outcome. *)
Ltac settle_sites :=
  repeat match goal with
         | H : raises ?env ?x = _ |- context [raises ?env ?x] => rewrite H
         end;
  unfold raise, modify; simpl.

Ltac new_events :=
  unfold events_since; simpl; rewrite <- ?app_assoc; rewrite drop_app_length; simpl.

End transact_spec.

Module registry_invariant.
Import proposal_utils registry_spec.

(** What the functions of the module keep true of [proposals]: no two
    entries have equal keys, and every entry holds a proposal that passed
    the validation of [add_proposal] and is filed under its own
    voting-message id. *)
Definition keys (d : dict) : list value := map (λ entry, key_norm (fst entry)) d.

Definition registry_ok (d : dict) : Prop :=
  NoDup (keys d) ∧
  Forall (λ entry, py_eq (fst entry) (voting_message_id (snd entry)) = true ∧
                   accepted (snd entry) = true) d.

(** The test of [get_proposal_initiated_by] on one proposal. *)
Definition initiated_by (message_id' : value) (p : Proposals) : bool :=
  py_equal (message_id p) message_id' || py_equal (bot_response_message_id p) message_id'.

#[global] Instance registry_ok_dec d : Decision (registry_ok d).
Proof. unfold registry_ok, keys. apply _. Defined.

End registry_invariant.

Module transact_more_spec.
Import transact transact_spec.

Definition msg_unexpected : string :=
  "Unexpected error in %s during transaction, channel=%s, message=%s, user=%s".

Definition msg_unable_to_reply : string :=
  "Unable to reply in the chat that a critical error has occurred.".


(** The grant message is the event [ev]. *)
Definition is_grant_message (const : Const) (ev : event) : Prop :=
  ∃ g, ev = ChannelSend (GRANT_APPLY_CHANNEL_ID const) (Formatted g).

(** The three checks that come before the arguments are looked at, in the
    order of the source: flag file, recovery, roles.  [None] when all three
    let the command through, otherwise the reply and the log message of the
    first one that stops it. *)
Definition closed_gate (const : Const) (env : Env) (ctx : Context)
    : option (string * string) :=
  if flag_file_exists env then
    Some (FREE_FUNDING_PAUSED_RESPONSE const,
          "Rejecting the transaction from %s because a stopcock file is detected.")
  else if is_recovery env then
    Some (FREE_FUNDING_PAUSED_RECOVERY_RESPONSE const,
          "Rejecting the transaction from %s because recovery is in progress.")
  else match validate_roles env (author (message ctx)) with
       | Ok false => Some (ERROR_MESSAGE_INVALID_ROLE const,
                           "Unauthorized user. message_id=%d")
       | _ => None
       end.

(** No call at all raises. *)
Definition all_calls_return (env : Env) : Prop := ∀ x, raises env x = None.

(** Sample data. *)

(** The flag file is present; roles and recovery are as in [env_with]. *)
Definition paused_env : Env :=
  {| raises := nothing_fails;
     validate_free_transaction := sample_validator;
     validate_roles := λ _, Ok true;
     fetch_message := λ _, Ok tips_message;
     flag_file_exists := true;
     is_recovery := false;
     re_search := sample_search;
     float_of_str := sample_float;
     get_amount_to_print := λ _, "20";
     now := 1700000000 |}.

(** [!tips <@2> 1.2.3 thanks]: the pattern matches, [float] does not. *)
Definition dotted_message : Message :=
  {| id := 902; content := "!tips <@2> 1.2.3 thanks"; author := "<@1>";
     mentions := ["<@2>"]; jump_url := "https://discord.test/channels/1/70/902";
     channel := 70 |}.

Definition dotted_env : Env :=
  {| raises := nothing_fails;
     validate_free_transaction := sample_validator;
     validate_roles := λ _, Ok true;
     fetch_message := λ _, Ok dotted_message;
     flag_file_exists := false;
     is_recovery := false;
     re_search := λ _ content,
       if String.eqb content "!tips <@2> 1.2.3 thanks"
       then Some ("<@2> ", "1.2.3", "thanks") else None;
     float_of_str := sample_float;
     get_amount_to_print := λ _, "20";
     now := 1700000000 |}.

Definition dotted_ctx : Context := {| message := dotted_message |}.

(** The history step fails after the grant message went out. *)
Definition history_down (x : site) : option exn :=
  match x with
  | at_history_add => Some (ExternalError "database is locked")
  | _ => None
  end.

(** The debit is saved and the grant message sent, then the history item
    cannot be written. *)
Definition history_down_run : result unit * state :=
  send_transaction const0 (env_with history_down tips_message) tips_ctx
    tips_message ["<@2>"] 20%float "thanks" (with_balance 100%float).

(** A well-formed command arrives while the flag file is present. *)
Definition paused_run : result unit * state :=
  free_funding_transact_command const0 paused_env tips_ctx
    ["<@2>"; "20"; "thanks"] (with_balance 100%float).

(** [!tips <@2>]: one argument. *)
Definition short_run : result unit * state :=
  free_funding_transact_command const0 (env_with nothing_fails tips_message) tips_ctx
    ["<@2>"] (with_balance 100%float).

(** [!tips <@2> 1.2.3 thanks] *)
Definition dotted_run : result unit * state :=
  free_funding_transact_command const0 dotted_env dotted_ctx
    ["<@2>"; "1.2.3"; "thanks"] (with_balance 100%float).


Ltac since :=
  unfold events_since; simpl; rewrite <- ?app_assoc;
  first [rewrite drop_app_length | rewrite drop_all]; simpl.

(** Split on the outcome of every collaborator call in the goal. *)
Ltac case_sites :=
  repeat match goal with
         | |- context [raises ?env ?x] =>
             destruct (raises env x) eqn:?; unfold raise, modify; simpl
         end.

(** Split on everything the command handler consults before it calls
    [send_transaction]. *)
Ltac command_cases :=
  repeat match goal with
         | |- context [fetch_message ?e ?i] =>
             destruct (fetch_message e i) as [?om|?] eqn:?; simpl
         | |- context [flag_file_exists ?e] =>
             destruct (flag_file_exists e) eqn:?; simpl
         | |- context [is_recovery ?e] =>
             destruct (is_recovery e) eqn:?; simpl
         | |- context [validate_roles ?e ?a] =>
             destruct (validate_roles e a) as [[]|?] eqn:?; simpl
         | |- context [transact.mentions ?m] =>
             destruct (transact.mentions m) as [|? ?] eqn:?; simpl
         | |- context [re_search ?e ?p ?c] =>
             destruct (re_search e p c) as [[[? ?] ?]|] eqn:?; simpl
         | |- context [float_of_str ?e ?g] =>
             destruct (float_of_str e g) as [?|?] eqn:?; simpl
         end.

End transact_more_spec.

(** * Properties of the proposal registry *)

Module proposal_utils_props.
Import proposal_utils registry_spec.

(** ** The dictionary *)

Lemma py_eq_refl k : py_eq k k = true.
Proof. unfold py_eq. by apply bool_decide_eq_true. Qed.

Lemma dict_get_set_eq k p d : dict_get k (dict_set k p d) = Some p.
Proof.
  induction d as [|[k' p'] d IH]; simpl.
  - by rewrite py_eq_refl.
  - destruct (py_eq k k') eqn:E; simpl; rewrite E; [done | exact IH].
Qed.

Lemma dict_get_del_eq k d : dict_get k (dict_del k d) = None.
Proof.
  induction d as [|[k' p'] d IH]; simpl; [done |].
  destruct (py_eq k k') eqn:E; simpl; [exact IH | by rewrite E].
Qed.

Lemma dict_set_length_present k p q d :
  dict_get k d = Some q → length (dict_set k p d) = length d.
Proof.
  induction d as [|[k' p'] d IH]; simpl; [done |].
  destruct (py_eq k k'); simpl; [done |]. intros H. by rewrite IH.
Qed.

Lemma dict_set_length_absent k p d :
  dict_get k d = None → length (dict_set k p d) = S (length d).
Proof.
  induction d as [|[k' p'] d IH]; simpl; [done |].
  destruct (py_eq k k'); simpl; [done |]. intros H. by rewrite IH.
Qed.

(** ** Validation *)

Lemma validate_grantless_ok p s :
  well_typed_grantless p = true → validate_grantless_proposal p s = (Ok tt, s).
Proof.
  unfold well_typed_grantless, validate_grantless_proposal. intros H.
  repeat (apply andb_prop in H; destruct H as [H ?]).
  run. by repeat match goal with E : _ = true |- _ => rewrite E; clear E end.
Qed.

Lemma validate_grantless_err p s :
  well_typed_grantless p = false →
  ∃ msg arg, validate_grantless_proposal p s = (Raise (ValueError msg arg), s).
Proof.
  unfold well_typed_grantless, validate_grantless_proposal. run.
  repeat match goal with
         | |- context [if ?b then _ else _] => destruct b; simpl; eauto
         end.
  discriminate.
Qed.

Lemma validation_ok p s :
  accepted p = true →
  (if truthy (not_financial p) then validate_grantless_proposal p
   else validate_proposal_with_grant p) s = (Ok tt, s).
Proof.
  unfold accepted. intros [Hw Hf]%andb_prop.
  destruct (truthy (not_financial p)); simpl in Hf.
  - by apply validate_grantless_ok.
  - unfold validate_proposal_with_grant, bind.
    rewrite validate_grantless_ok by done. run. by rewrite Hf.
Qed.

Lemma validation_err p s :
  accepted p = false →
  ∃ msg arg,
    (if truthy (not_financial p) then validate_grantless_proposal p
     else validate_proposal_with_grant p) s = (Raise (ValueError msg arg), s).
Proof.
  unfold accepted. intros H.
  destruct (well_typed_grantless p) eqn:Hw; simpl in H.
  - apply orb_false_elim in H as [Ht Hf]. rewrite Ht.
    unfold validate_proposal_with_grant, bind.
    rewrite validate_grantless_ok by done. run. rewrite Hf. eauto.
  - destruct (validate_grantless_err p s Hw) as (msg & arg & E).
    destruct (truthy (not_financial p)); [eauto |].
    unfold validate_proposal_with_grant, bind. rewrite E. eauto.
Qed.

Lemma add_proposal_accepted p s :
  accepted p = true →
  add_proposal p s =
    (Ok tt, emit (Log Info msg_added)
              (set_proposals (dict_set (voting_message_id p) p) s)).
Proof.
  intros H. unfold add_proposal. unfold bind at 1. unfold bind at 1.
  by rewrite validation_ok.
Qed.

Lemma add_proposal_rejected p s :
  accepted p = false →
  ∃ msg arg, add_proposal p s = (Raise (ValueError msg arg), s).
Proof.
  intros H. destruct (validation_err p s H) as (msg & arg & E).
  exists msg, arg. unfold add_proposal. unfold bind at 1. unfold bind at 1.
  by rewrite E.
Qed.

Lemma add_proposal_ok_inv p s s1 :
  add_proposal p s = (Ok tt, s1) →
  accepted p = true ∧
  s1 = emit (Log Info msg_added)
         (set_proposals (dict_set (voting_message_id p) p) s).
Proof.
  destruct (accepted p) eqn:H.
  - rewrite add_proposal_accepted by done. intros [= <-]. done.
  - destruct (add_proposal_rejected p s H) as (msg & arg & E). by rewrite E.
Qed.

Lemma is_int_hashable k : is_int k = true → hashable k = true.
Proof. by destruct k. Qed.

Lemma accepted_hashable p : accepted p = true → hashable (voting_message_id p) = true.
Proof.
  unfold accepted, well_typed_grantless. intros H.
  repeat (apply andb_prop in H; destruct H as [H ?]).
  by apply is_int_hashable.
Qed.

Lemma get_proposal_present k p s :
  hashable k = true →
  dict_get k (proposals s) = Some p → get_proposal k s = (Ok p, s).
Proof. intros Hk H. unfold get_proposal, lookup. rewrite Hk. run. by rewrite H. Qed.

Lemma get_proposal_absent k s :
  hashable k = true →
  dict_get k (proposals s) = None →
  get_proposal k s =
    (Raise (ValueError "Invalid proposal ID" k), emit (Log Critical msg_not_gettable) s).
Proof. intros Hk H. unfold get_proposal, lookup. rewrite Hk. run. by rewrite H. Qed.

Lemma remove_proposal_absent k db s :
  hashable k = true →
  dict_get k (proposals s) = None →
  remove_proposal k db s =
    (Raise (ValueError "Invalid proposal ID" k), emit (Log Critical msg_not_removable) s).
Proof. intros Hk H. unfold remove_proposal, lookup. rewrite Hk. run. by rewrite H. Qed.

Lemma remove_proposal_delete_fails k db s p e :
  hashable k = true →
  dict_get k (proposals s) = Some p → delete_raises db p = Some e →
  remove_proposal k db s = (Raise e, emit (Log Info "Removing data: %s") s).
Proof.
  intros Hk H E. unfold remove_proposal, lookup. rewrite Hk. run.
  rewrite H. simpl. by rewrite E.
Qed.

Lemma remove_proposal_deletes k db s p :
  hashable k = true →
  dict_get k (proposals s) = Some p → delete_raises db p = None →
  remove_proposal k db s =
    (Ok tt, set_proposals (dict_del k)
              (emit (DbDelete p) (emit (Log Info "Removing data: %s") s))).
Proof.
  intros Hk H E. unfold remove_proposal, lookup. rewrite Hk. run.
  rewrite H. simpl. by rewrite E.
Qed.

(** ** The two loops of [find_matching_voter] *)

Lemma scan_voters_filter user_id voting_message_id acc vs :
  scan_voters user_id voting_message_id acc vs =
  acc ++ List.filter (voter_matches user_id voting_message_id) vs.
Proof.
  unfold scan_voters. revert acc.
  induction vs as [|v vs IH]; intros acc; simpl.
  - by rewrite app_nil_r.
  - rewrite IH. destruct (voter_matches user_id voting_message_id v); [|done].
    by rewrite <- app_assoc.
Qed.

Lemma scan_proposals_from user_id voting_message_id acc (d : dict) :
  foldl (λ acc entry, scan_voters user_id voting_message_id acc (voters (snd entry)))
        acc d =
  acc ++ matching_voters user_id voting_message_id d.
Proof.
  unfold matching_voters, all_voters. revert acc.
  induction d as [|[k p] d IH]; intros acc; simpl.
  - by rewrite app_nil_r.
  - rewrite IH, scan_voters_filter, List.filter_app. by rewrite <- app_assoc.
Qed.

Lemma scan_proposals_matching user_id voting_message_id d :
  scan_proposals user_id voting_message_id d =
  matching_voters user_id voting_message_id d.
Proof. unfold scan_proposals. by rewrite scan_proposals_from. Qed.

(** ** The claims *)

(** C1. For every id that can be a dictionary key (every integer is one):
    [remove_proposal] on an id that is not registered logs at critical
    level, raises the not-found [ValueError] and leaves the registry as it
    was.  On a registered id it deletes the proposal from the store before it
    touches the dictionary: when the delete raises, the exception propagates
    and the entry is still registered; when the delete returns, the entry is
    removed. *)
Theorem remove_proposal_order (voting_message_id : value) (db : DBUtil) (s : state) :
  hashable voting_message_id = true →
  (dict_get voting_message_id (proposals s) = None →
   ∃ s', remove_proposal voting_message_id db s =
           (Raise (ValueError "Invalid proposal ID" voting_message_id), s') ∧
         proposals s' = proposals s ∧
         trace s' = trace s ++ [Log Critical msg_not_removable]) ∧
  (∀ p, dict_get voting_message_id (proposals s) = Some p →
     (∀ e, delete_raises db p = Some e →
        ∃ s', remove_proposal voting_message_id db s = (Raise e, s') ∧
              proposals s' = proposals s ∧
              dict_get voting_message_id (proposals s') = Some p ∧
              DbDelete p ∉ drop (length (trace s)) (trace s')) ∧
     (delete_raises db p = None →
        ∃ s', remove_proposal voting_message_id db s = (Ok tt, s') ∧
              trace s' = trace s ++ [Log Info "Removing data: %s"; DbDelete p] ∧
              proposals s' = dict_del voting_message_id (proposals s) ∧
              dict_get voting_message_id (proposals s') = None)).
Proof.
  intros Hk. split.
  - intros H. rewrite remove_proposal_absent by done. eexists. split; [done |].
    by simpl.
  - intros p H. split.
    + intros e E. rewrite (remove_proposal_delete_fails _ _ _ _ _ Hk H E).
      eexists. split; [done |]. simpl. repeat split; [done |].
      rewrite drop_app_length. by intros [=]%list_elem_of_singleton.
    + intros E. rewrite (remove_proposal_deletes _ _ _ _ Hk H E).
      eexists. split; [done |]. simpl. rewrite <- app_assoc. simpl.
      repeat split. apply dict_get_del_eq.
Qed.

Lemma remove_proposal_order_witness :
  (∃ s', remove_proposal (VInt 7) db_up one_proposal =
           (Raise (ValueError "Invalid proposal ID" (VInt 7)), s') ∧
         proposals s' = proposals one_proposal ∧
         trace s' = [Log Critical msg_not_removable]) ∧
  (∃ s', remove_proposal (VInt 1001) db_down one_proposal =
           (Raise (ExternalError "database is locked"), s') ∧
         proposals s' = proposals one_proposal ∧
         dict_get (VInt 1001) (proposals s') = Some (grantless 1001 [alice_yes; bob_no]) ∧
         DbDelete (grantless 1001 [alice_yes; bob_no]) ∉ trace s') ∧
  (∃ s', remove_proposal (VInt 1001) db_up one_proposal = (Ok tt, s') ∧
         trace s' = [Log Info "Removing data: %s";
                     DbDelete (grantless 1001 [alice_yes; bob_no])] ∧
         proposals s' = [] ∧
         dict_get (VInt 1001) (proposals s') = None).
Proof.
  split; [| split].
  - exact (proj1 (remove_proposal_order (VInt 7) db_up one_proposal eq_refl) eq_refl).
  - exact (proj1 (proj2 (remove_proposal_order (VInt 1001) db_down one_proposal eq_refl)
                    (grantless 1001 [alice_yes; bob_no]) eq_refl)
             (ExternalError "database is locked") eq_refl).
  - exact (proj2 (proj2 (remove_proposal_order (VInt 1001) db_up one_proposal eq_refl)
                    (grantless 1001 [alice_yes; bob_no]) eq_refl)
             eq_refl).
Defined.

(** C5. After a successful [add_proposal p], [get_proposal] on the
    voting-message id of [p] returns [p]; [remove_proposal] on that id then
    succeeds whenever the store's delete does, and after it [get_proposal] on
    the same id raises the not-found [ValueError]. *)
Theorem lookup_after_insert_and_remove (p : Proposals) (db : DBUtil) (s s1 : state) :
  add_proposal p s = (Ok tt, s1) →
  get_proposal (voting_message_id p) s1 = (Ok p, s1) ∧
  (delete_raises db p = None →
   ∃ s2, remove_proposal (voting_message_id p) db s1 = (Ok tt, s2)) ∧
  (∀ s2, remove_proposal (voting_message_id p) db s1 = (Ok tt, s2) →
     ∃ s3, get_proposal (voting_message_id p) s2 =
             (Raise (ValueError "Invalid proposal ID" (voting_message_id p)), s3)).
Proof.
  intros [Hk%accepted_hashable ->]%add_proposal_ok_inv.
  set (s1 := emit _ _).
  assert (dict_get (voting_message_id p) (proposals s1) = Some p) as Hget
    by apply dict_get_set_eq.
  split; [by apply get_proposal_present |]. split.
  - intros E. rewrite (remove_proposal_deletes _ _ _ _ Hk Hget E). eauto.
  - intros s2. destruct (delete_raises db p) as [e|] eqn:E.
    + by rewrite (remove_proposal_delete_fails _ _ _ _ _ Hk Hget E).
    + rewrite (remove_proposal_deletes _ _ _ _ Hk Hget E). intros [= <-].
      eexists. apply get_proposal_absent; [done |]. apply dict_get_del_eq.
Qed.

Lemma lookup_after_insert_and_remove_witness :
  ∃ s1 s2 s3,
    add_proposal (grantless 1002 [carol_yes]) one_proposal = (Ok tt, s1) ∧
    get_proposal (VInt 1002) s1 = (Ok (grantless 1002 [carol_yes]), s1) ∧
    remove_proposal (VInt 1002) db_up s1 = (Ok tt, s2) ∧
    get_proposal (VInt 1002) s2 =
      (Raise (ValueError "Invalid proposal ID" (VInt 1002)), s3).
Proof.
  destruct (lookup_after_insert_and_remove (grantless 1002 [carol_yes]) db_up
              one_proposal _ eq_refl) as (Hget & Hrem & Hgone).
  destruct (Hrem eq_refl) as (s2 & Hs2).
  destruct (Hgone s2 Hs2) as (s3 & Hs3).
  eexists _, s2, s3.
  split; [reflexivity | split; [exact Hget | split; [exact Hs2 | exact Hs3]]].
Defined.

(** C6. [add_proposal] on a financial proposal ([not_financial] false) whose
    [finance_recipients] is not an [InstrumentedList] (for instance [None])
    raises a [ValueError] and stores nothing.  On a non-financial proposal
    the outcome does not depend on [finance_recipients]: whatever it holds,
    the insert succeeds as soon as the other fields are well typed. *)
Theorem recipients_checked_only_when_financial (p : Proposals) (s : state) :
  (truthy (not_financial p) = false →
   is_InstrumentedList (finance_recipients p) = false →
   ∃ msg arg, add_proposal p s = (Raise (ValueError msg arg), s)) ∧
  (truthy (not_financial p) = true →
   ∀ fr,
     fst (add_proposal (with_finance_recipients fr p) s) = fst (add_proposal p s) ∧
     (well_typed_grantless p = true →
      ∃ s', add_proposal (with_finance_recipients fr p) s = (Ok tt, s') ∧
            dict_get (voting_message_id p) (proposals s') =
              Some (with_finance_recipients fr p))).
Proof.
  split.
  - intros Ht Hf. apply add_proposal_rejected. unfold accepted.
    rewrite Ht, Hf. apply andb_false_r.
  - intros Ht fr.
    assert (∀ q, truthy (not_financial q) = true →
                 accepted q = well_typed_grantless q) as Hacc.
    { intros q Hq. unfold accepted. rewrite Hq. apply andb_true_r. }
    assert (accepted (with_finance_recipients fr p) = accepted p) as Hsame.
    { by rewrite !Hacc. }
    split.
    + unfold add_proposal.
      change (not_financial (with_finance_recipients fr p)) with (not_financial p).
      rewrite Ht.
      change (validate_grantless_proposal (with_finance_recipients fr p))
        with (validate_grantless_proposal p).
      unfold bind.
      by destruct (validate_grantless_proposal p s) as [[[]|e] s1].
    + intros Hw. rewrite add_proposal_accepted by (by rewrite Hsame, Hacc).
      eexists. split; [done |]. apply dict_get_set_eq.
Qed.

Lemma recipients_checked_only_when_financial_witness :
  (∃ msg arg, add_proposal (with_grant 1003 VNone) one_proposal =
                (Raise (ValueError msg arg), one_proposal)) ∧
  (∃ msg arg, add_proposal (with_grant 1003 (VList ["<@14>"])) one_proposal =
                (Raise (ValueError msg arg), one_proposal)) ∧
  (∃ s', add_proposal (with_finance_recipients (VList ["<@14>"]) (grantless 1002 []))
           one_proposal = (Ok tt, s') ∧
         dict_get (VInt 1002) (proposals s') =
           Some (with_finance_recipients (VList ["<@14>"]) (grantless 1002 []))).
Proof.
  split; [| split].
  - exact (proj1 (recipients_checked_only_when_financial (with_grant 1003 VNone)
                    one_proposal) eq_refl eq_refl).
  - exact (proj1 (recipients_checked_only_when_financial
                    (with_grant 1003 (VList ["<@14>"])) one_proposal)
             eq_refl eq_refl).
  - exact (proj2 (proj2 (recipients_checked_only_when_financial (grantless 1002 [])
                           one_proposal) eq_refl (VList ["<@14>"]))
             eq_refl).
Defined.

(** C8. [find_matching_voter] looks at the voters of every registered
    proposal.  When exactly one of them has the given user id and
    voting-message id, the result is that voter itself, not a list; when none
    has, the result is the empty list; when several have, the result is the
    list of all of them, which has more than one element. *)
Theorem find_matching_voter_cardinality (user_id voting_message_id : Z) (s : state) :
  let matches := matching_voters user_id voting_message_id (proposals s) in
  (length matches = 1%nat →
   ∃ v, find_matching_voter user_id voting_message_id s = One v ∧
        matches = [v] ∧
        v ∈ all_voters (proposals s) ∧
        voter_user_id v = user_id ∧
        voter_voting_message_id v = voting_message_id) ∧
  (length matches = 0%nat →
   find_matching_voter user_id voting_message_id s = Several []) ∧
  ((1 < length matches)%nat →
   ∃ vs, find_matching_voter user_id voting_message_id s = Several vs ∧
         vs = matches ∧ (1 < length vs)%nat).
Proof.
  intros matches. unfold find_matching_voter.
  rewrite scan_proposals_matching. fold matches.
  split; [| split].
  - destruct matches as [|v [|w rest]] eqn:E; try discriminate. intros _.
    exists v. split; [done |]. split; [done |].
    assert (In v (List.filter (voter_matches user_id voting_message_id)
                    (all_voters (proposals s)))) as Hin.
    { fold (matching_voters user_id voting_message_id (proposals s)).
      fold matches. rewrite E. by left. }
    apply List.filter_In in Hin as [Hin Hm].
    split; [by apply list_elem_of_In |].
    unfold voter_matches in Hm. apply andb_prop in Hm as [H1 H2].
    split; by apply Z.eqb_eq.
  - destruct matches; [done | discriminate].
  - destruct matches as [|v [|w rest]]; simpl; [lia | lia |].
    intros _. eexists. split; [done |]. split; [done |]. simpl. lia.
Qed.

Lemma find_matching_voter_cardinality_witness :
  find_matching_voter 13 1002 two_proposals = One carol_yes ∧
  find_matching_voter 99 1001 two_proposals = Several [] ∧
  find_matching_voter 11 1001 duplicated_vote = Several [alice_yes; alice_yes].
Proof.
  split; [| split].
  - destruct (proj1 (find_matching_voter_cardinality 13 1002 two_proposals) eq_refl)
      as (v & Hv & [= <-] & _).
    exact Hv.
  - exact (proj1 (proj2 (find_matching_voter_cardinality 99 1001 two_proposals))
             eq_refl).
  - destruct (proj2 (proj2 (find_matching_voter_cardinality 11 1001 duplicated_vote)))
      as (vs & Hvs & -> & _).
    + simpl. lia.
    + exact Hvs.
Defined.

(** C9. The overload of [add_proposal] that also persists, called with a
    handle that is falsy, first runs the in-memory insert and only then
    raises the generic exception: whenever that exception comes out, the
    registry already maps the voting-message id to the new proposal, and
    nothing was written to the store. *)
Theorem add_proposal_db_not_atomic (p : Proposals) (db : DBUtil) (s : state) :
  db_truthy db = false →
  (accepted p = true →
   ∃ s', add_proposal_db p db s =
           (Raise (Exception "Incorrect DB identifier was given."), s') ∧
         dict_get (voting_message_id p) (proposals s') = Some p ∧
         trace s' = trace s ++ [Log Info msg_added]) ∧
  (∀ s', add_proposal_db p db s =
           (Raise (Exception "Incorrect DB identifier was given."), s') →
         dict_get (voting_message_id p) (proposals s') = Some p).
Proof.
  intros Hdb. unfold add_proposal_db. unfold bind at 1 3. rewrite Hdb.
  destruct (accepted p) eqn:Hp.
  - rewrite add_proposal_accepted by done. unfold raise. split.
    + intros _. eexists. split; [done |]. split; [| done].
      simpl. apply dict_get_set_eq.
    + intros s' [= <-]. simpl. apply dict_get_set_eq.
  - destruct (add_proposal_rejected p s Hp) as (msg & arg & ->).
    split; [done |]. by intros s'.
Qed.

Lemma add_proposal_db_not_atomic_witness :
  ∃ s', add_proposal_db (grantless 1002 [carol_yes]) db_falsy one_proposal =
          (Raise (Exception "Incorrect DB identifier was given."), s') ∧
        dict_get (VInt 1002) (proposals s') = Some (grantless 1002 [carol_yes]) ∧
        dict_get (VInt 1002) (proposals one_proposal) = None.
Proof.
  destruct (proj1 (add_proposal_db_not_atomic (grantless 1002 [carol_yes]) db_falsy
                     one_proposal eq_refl) eq_refl) as (s' & Hs' & Hget & _).
  exists s'. split; [exact Hs' | split; [exact Hget | reflexivity]].
Defined.

(** C10. [add_proposal] does not look whether the voting-message id is
    already registered: on an accepted proposal whose id has an entry it
    returns normally, the entry now holds the new proposal, and the registry
    has as many entries as before. *)
Theorem add_proposal_overwrites (p q : Proposals) (s : state) :
  dict_get (voting_message_id p) (proposals s) = Some q →
  accepted p = true →
  ∃ s', add_proposal p s = (Ok tt, s') ∧
        dict_get (voting_message_id p) (proposals s') = Some p ∧
        length (proposals s') = length (proposals s) ∧
        trace s' = trace s ++ [Log Info msg_added].
Proof.
  intros Hq Hp. rewrite add_proposal_accepted by done.
  eexists. split; [done |]. simpl. split; [apply dict_get_set_eq |].
  split; [| done]. by eapply dict_set_length_present.
Qed.

Lemma add_proposal_overwrites_witness :
  ∃ s', add_proposal (grantless 1001 [carol_yes]) one_proposal = (Ok tt, s') ∧
        dict_get (VInt 1001) (proposals one_proposal) =
          Some (grantless 1001 [alice_yes; bob_no]) ∧
        dict_get (VInt 1001) (proposals s') = Some (grantless 1001 [carol_yes]) ∧
        length (proposals s') = 1%nat.
Proof.
  destruct (add_proposal_overwrites (grantless 1001 [carol_yes])
              (grantless 1001 [alice_yes; bob_no]) one_proposal eq_refl eq_refl)
    as (s' & Hs' & Hget & Hlen & _).
  exists s'. split; [exact Hs' | split; [reflexivity | split; [exact Hget | exact Hlen]]].
Defined.

End proposal_utils_props.

(** * Properties of the free-funding transaction *)

Module transact_props.
Import transact transact_spec.

(** C3. In every run of [send_transaction] that the validator accepts and
    that returns normally, the author's balance afterwards is the balance the
    run started from minus [amount * len(mentions)], the other balances are
    untouched, exactly one history record is appended, its amount being
    [amount * len(mentions)], and the success reaction is added to the
    triggering message. *)
Theorem send_transaction_debits_once (const : Const) (env : Env) (ctx : Context)
    (original_message : Message) (mentions : list string) (amount : float)
    (description : string) (s s' : state) :
  let author_mention := author (message ctx) in
  let b := resolved_balance const author_mention s in
  let total := total_amount amount mentions in
  validate_free_transaction env original_message author_mention b mentions amount
    description = Ok true →
  send_transaction const env ctx original_message mentions amount description s
    = (Ok tt, s') →
  balances s' !! author_mention = Some (PrimFloat.sub b total) ∧
  (∀ other, other ≠ author_mention → balances s' !! other = balances s !! other) ∧
  (∃ t, history s' = history s ++ [t] ∧ tx_amount t = total ∧
        tx_author t = author_mention ∧ tx_description t = description) ∧
  AddReaction (id (message ctx)) (REACTION_ON_TRANSACTION_SUCCEED const)
    ∈ events_since (length (trace s)) s'.
Proof.
  intros author_mention b total Hval Hrun.
  unfold send_transaction in Hrun. fold author_mention in Hrun.
  unfold b, resolved_balance in *.
  run_tx in Hrun.
  destruct (balances s !! author_mention) as [b0|] eqn:Hb; simpl in *.
  - rewrite Hval in Hrun. simpl in Hrun.
    repeat (case_site Hrun; try discriminate).
    injection Hrun as <-. simpl.
    split; [apply lookup_insert_eq |].
    split; [by intros other Hne; apply lookup_insert_ne |].
    split; [eauto |].
    new_events. set_solver.
  - case_site Hrun; [discriminate |].
    rewrite Hval in Hrun. simpl in Hrun.
    repeat (case_site Hrun; try discriminate).
    injection Hrun as <-. simpl.
    split; [apply lookup_insert_eq |].
    split.
    { intros other Hne. by rewrite !lookup_insert_ne. }
    split; [eauto |].
    new_events. set_solver.
Qed.

Lemma send_transaction_debits_once_witness :
  ∃ s', thanks_run = (Ok tt, s') ∧
        balances s' !! "<@1>" = Some 80%float ∧
        (∃ t, history s' = [t] ∧ tx_amount t = 20%float) ∧
        AddReaction 900 ":white_check_mark:" ∈ trace s'.
Proof.
  assert (thanks_run = (Ok tt, snd thanks_run)) as Hrun by (by vm_compute).
  exists (snd thanks_run). split; [exact Hrun |].
  destruct (send_transaction_debits_once const0 (env_with nothing_fails tips_message)
              tips_ctx tips_message ["<@2>"] 20%float "thanks"
              (with_balance 100%float) (snd thanks_run) eq_refl Hrun)
    as (Hbal & _ & (t & Hhist & Hamount & _) & Hreact).
  split; [exact Hbal |]. split; [| exact Hreact].
  exists t. split; [exact Hhist | exact Hamount].
Defined.

(** C4, as the code has it.  In every run of [send_transaction] that reaches
    the validator and is rejected by it, the balance rows are those the run
    found, with the author's row added at the season limit when it was
    missing; no history record is created; nothing is saved or sent; and the
    only call made is the one adding the failure reaction to the triggering
    message, after which the run returns (when that call raises, its
    exception propagates and no reaction is added). *)
Theorem rejection_creates_at_most_the_balance_row (const : Const) (env : Env)
    (ctx : Context) (original_message : Message) (mentions : list string)
    (amount : float) (description : string) (s : state) :
  let author_mention := author (message ctx) in
  let b := resolved_balance const author_mention s in
  (balances s !! author_mention = None → raises env at_db_add = None) →
  validate_free_transaction env original_message author_mention b mentions amount
    description = Ok false →
  ∃ r s',
    send_transaction const env ctx original_message mentions amount description s
      = (r, s') ∧
    balances s' = balances_resolved const author_mention s ∧
    (∀ b0, balances s !! author_mention = Some b0 → balances s' = balances s) ∧
    history s' = history s ∧
    match raises env at_react_rejected with
    | None =>
        r = Ok tt ∧
        events_since (length (trace s)) s' =
          creation_log author_mention s ++
          [AddReaction (id (message ctx)) (REACTION_ON_TRANSACTION_FAILED const)]
    | Some e =>
        r = Raise e ∧
        events_since (length (trace s)) s' = creation_log author_mention s
    end.
Proof.
  intros author_mention b Hadd Hval.
  unfold send_transaction. fold author_mention.
  unfold b, resolved_balance, balances_resolved, creation_log in *.
  run_tx.
  destruct (balances s !! author_mention) as [b0|] eqn:Hb; simpl in *.
  - rewrite Hval. simpl.
    destruct (raises env at_react_rejected) as [e|]; unfold raise, modify; simpl;
      eexists _, _; (split; [reflexivity |]); simpl;
      (split; [done |]); (split; [done |]); (split; [done |]); split; try done.
    + unfold events_since. by rewrite drop_all.
    + by new_events.
  - rewrite (Hadd eq_refl). unfold modify. simpl. rewrite Hval. simpl.
    destruct (raises env at_react_rejected) as [e|]; unfold raise, modify; simpl;
      eexists _, _; (split; [reflexivity |]); simpl;
      (split; [done |]); (split; [done |]); (split; [done |]); split; try done.
    + by new_events.
    + by new_events.
Qed.

Lemma rejection_creates_at_most_the_balance_row_witness :
  ∃ s', overdrawn_run = (Ok tt, s') ∧
        balances s' = balances (with_balance 10%float) ∧
        history s' = [] ∧
        trace s' = [AddReaction 900 ":x:"].
Proof.
  destruct (rejection_creates_at_most_the_balance_row const0
              (env_with nothing_fails tips_message) tips_ctx tips_message ["<@2>"]
              20%float "thanks" (with_balance 10%float) (λ _, eq_refl) eq_refl)
    as (r & s' & Hrun & _ & Hbal & Hhist & -> & Hev).
  exists s'. split; [exact Hrun |]. split; [exact (Hbal _ eq_refl) |].
  split; [exact Hhist | exact Hev].
Defined.

(** C4, as stated, fails: an author who has no balance row and is rejected
    by the validator leaves [send_transaction] with a row at the season
    limit, created before the validator was asked. *)
Lemma rejection_creates_missing_balance_row :
  validate_free_transaction (env_with nothing_fails tips_message) tips_message
    "<@1>" (resolved_balance const0 "<@1>" no_rows) ["<@2>"] 200%float "thanks"
    = Ok false ∧
  fst newcomer_rejected_run = Ok tt ∧
  balances no_rows !! "<@1>" = None ∧
  balances (snd newcomer_rejected_run) !! "<@1>" = Some 100%float ∧
  balances (snd newcomer_rejected_run) ≠ balances no_rows.
Proof.
  repeat split; try reflexivity.
  intros H. apply (f_equal (λ m : gmap string float, m !! "<@1>")) in H.
  vm_compute in H. discriminate.
Qed.

(** ** The grant notification fails after the debit *)

(** When the message telling the channel that the grant could not be applied
    goes out, the failure is logged at critical level and the exception of
    the grant step is raised again; the debit stays and no history record is
    written. *)
Lemma grant_failure_logged_and_reraised (const : Const) (env : Env) (ctx : Context)
    (original_message : Message) (mentions : list string) (amount : float)
    (description : string) (s : state) (e : exn) :
  let author_mention := author (message ctx) in
  let b := resolved_balance const author_mention s in
  (balances s !! author_mention = None → raises env at_db_add = None) →
  validate_free_transaction env original_message author_mention b mentions amount
    description = Ok true →
  raises env at_db_save = None →
  (raises env at_grant_send = Some e ∨
   raises env at_grant_send = None ∧ raises env at_grant_edit = Some e) →
  raises env at_could_not_apply_send = None →
  ∃ s', send_transaction const env ctx original_message mentions amount description s
          = (Raise e, s') ∧
        balances s' !! author_mention =
          Some (PrimFloat.sub b (total_amount amount mentions)) ∧
        history s' = history s ∧
        DbSave ∈ events_since (length (trace s)) s' ∧
        Log Critical msg_grant_failed ∈ events_since (length (trace s)) s'.
Proof.
  intros author_mention b Hadd Hval Hsave He Halert.
  unfold send_transaction. fold author_mention.
  unfold b, resolved_balance, total_amount in *.
  run_tx.
  destruct (balances s !! author_mention) as [b0|] eqn:Hb; simpl in *;
    [clear Hadd | specialize (Hadd eq_refl)];
    destruct He as [He | [He1 He2]];
    settle_sites; rewrite Hval; simpl; settle_sites;
    (eexists; split; [reflexivity |]); simpl;
    (split; [apply lookup_insert_eq |]); (split; [done |]);
    split; new_events; set_solver.
Qed.

Example grant_channel_down_is_logged :
  fst grant_channel_down_run = Raise (ExternalError "403 Forbidden") ∧
  balances (snd grant_channel_down_run) !! "<@1>" = Some 80%float ∧
  history (snd grant_channel_down_run) = [] ∧
  trace (snd grant_channel_down_run) =
    [DbSave; ChannelSend 70 (Plain "Could not apply grant. cc <@9>");
     Log Critical msg_grant_failed].
Proof. by vm_compute. Qed.

(** When that message cannot be sent either, its exception is the one that
    leaves [send_transaction], and the run has logged nothing at critical
    level; the debit stays and no history record is written. *)
Lemma grant_failure_unlogged_when_reply_fails (const : Const) (env : Env)
    (ctx : Context) (original_message : Message) (mentions : list string)
    (amount : float) (description : string) (s : state) (e e' : exn) :
  let author_mention := author (message ctx) in
  let b := resolved_balance const author_mention s in
  (balances s !! author_mention = None → raises env at_db_add = None) →
  validate_free_transaction env original_message author_mention b mentions amount
    description = Ok true →
  raises env at_db_save = None →
  (raises env at_grant_send = Some e ∨
   raises env at_grant_send = None ∧ raises env at_grant_edit = Some e) →
  raises env at_could_not_apply_send = Some e' →
  ∃ s', send_transaction const env ctx original_message mentions amount description s
          = (Raise e', s') ∧
        balances s' !! author_mention =
          Some (PrimFloat.sub b (total_amount amount mentions)) ∧
        history s' = history s ∧
        DbSave ∈ events_since (length (trace s)) s' ∧
        List.existsb is_critical (events_since (length (trace s)) s') = false.
Proof.
  intros author_mention b Hadd Hval Hsave He Halert.
  unfold send_transaction. fold author_mention.
  unfold b, resolved_balance, total_amount in *.
  run_tx.
  destruct (balances s !! author_mention) as [b0|] eqn:Hb; simpl in *;
    [clear Hadd | specialize (Hadd eq_refl)];
    destruct He as [He | [He1 He2]];
    settle_sites; rewrite Hval; simpl; settle_sites;
    (eexists; split; [reflexivity |]); simpl;
    (split; [apply lookup_insert_eq |]); (split; [done |]);
    split; new_events; first [done | set_solver].
Qed.

(** C2, at a run the code breaks it on.  The author has 100 and sends 20 to
    one recipient; the debit is saved; the platform then refuses both the
    message to the grant channel and the message to the author's channel.
    The balance stays at 80 and no history record is written, but the run
    logs nothing at critical level, and the exception that reaches the
    caller is the one of the second message, not the one of the grant
    step. *)
Theorem grant_failure_with_platform_down :
  fst platform_down_run = Raise (ExternalError "503 Service Unavailable (reply)") ∧
  raises (env_with platform_down tips_message) at_grant_send =
    Some (ExternalError "503 Service Unavailable (grant channel)") ∧
  balances (snd platform_down_run) !! "<@1>" = Some 80%float ∧
  history (snd platform_down_run) = [] ∧
  trace (snd platform_down_run) = [DbSave] ∧
  List.existsb is_critical (trace (snd platform_down_run)) = false.
Proof. by vm_compute. Qed.

(** ** Commands with three arguments or more *)

(** A command that passes the checks on the flag file, the recovery and the
    author's roles, has three arguments or more and a resolved mention, and
    on which the pattern does not match, is answered with the invalid-format
    message and the failure reaction; balances and history are untouched. *)
Lemma no_match_is_rejected (const : Const) (env : Env) (ctx : Context)
    (args : list string) (original_message : Message) (s : state) :
  fetch_message env (id (message ctx)) = Ok original_message →
  flag_file_exists env = false →
  is_recovery env = false →
  validate_roles env (author (message ctx)) = Ok true →
  (3 ≤ length args)%nat →
  mentions original_message ≠ [] →
  re_search env (command_pattern const) (content (message ctx)) = None →
  raises env at_no_match_reply = None →
  raises env at_no_match_react = None →
  ∃ s', free_funding_transact_command const env ctx args s = (Ok tt, s') ∧
        balances s' = balances s ∧
        history s' = history s ∧
        events_since (length (trace s)) s' =
          [Log Debug msg_received;
           Reply (id original_message)
             (ERROR_MESSAGE_FREE_FUNDING_INVALID_COMMAND_FORMAT const);
           AddReaction (id (message ctx)) (REACTION_ON_TRANSACTION_FAILED const);
           Log Info msg_invalid_format].
Proof.
  intros Hfetch Hflag Hrec Hroles Hargs Hment Hre Hreply Hreact.
  unfold free_funding_transact_command, reject. run_tx.
  rewrite Hfetch, Hflag, Hrec, Hroles. simpl.
  destruct args as [|a1 [|a2 [|a3 args]]]; simpl in Hargs; try lia. simpl.
  destruct (mentions original_message) as [|m ms]; [done |]. simpl.
  rewrite Hre. settle_sites.
  eexists. split; [reflexivity |]. simpl. repeat split. by new_events.
Qed.

(** The same command without a resolved mention is dropped: the handler
    returns without a reply, without a reaction and without a transaction,
    whatever the text of the command is. *)
Lemma no_mention_is_ignored (const : Const) (env : Env) (ctx : Context)
    (args : list string) (original_message : Message) (s : state) :
  fetch_message env (id (message ctx)) = Ok original_message →
  flag_file_exists env = false →
  is_recovery env = false →
  validate_roles env (author (message ctx)) = Ok true →
  (3 ≤ length args)%nat →
  mentions original_message = [] →
  free_funding_transact_command const env ctx args s =
    (Ok tt, emit (Log Debug msg_received) s).
Proof.
  intros Hfetch Hflag Hrec Hroles Hargs Hment.
  unfold free_funding_transact_command. run_tx.
  rewrite Hfetch, Hflag, Hrec, Hroles. simpl.
  destruct args as [|a1 [|a2 [|a3 args]]]; simpl in Hargs; try lia. simpl.
  by rewrite Hment.
Qed.

(** C7, at a command the code breaks it on.  [!tips hello 5 thanks] has
    three arguments and mentions nobody; the flag file is absent, no recovery
    is in progress and the author's roles are accepted.  The handler returns
    normally having only logged the reception at debug level: no reply, no
    reaction, no change of balances or history. *)
Theorem unaddressed_command_gets_no_answer :
  length (mentions unaddressed_message) = 0%nat ∧
  unaddressed_run =
    (Ok tt, {| balances := balances (with_balance 100%float);
               history := [];
               trace := [Log Debug msg_received] |}) ∧
  List.existsb is_reply (trace (snd unaddressed_run)) = false ∧
  List.existsb is_reaction (trace (snd unaddressed_run)) = false.
Proof. by vm_compute. Qed.

End transact_props.

(** * Further properties of the proposal registry *)

Module registry_more_props.
Import proposal_utils registry_spec registry_invariant proposal_utils_props.

Lemma py_eq_true a b : py_eq a b = true ↔ key_norm a = key_norm b.
Proof. unfold py_eq. apply bool_decide_eq_true. Qed.

Lemma py_eq_false a b : py_eq a b = false ↔ key_norm a ≠ key_norm b.
Proof. unfold py_eq. apply bool_decide_eq_false. Qed.

Lemma py_eq_sym a b : py_eq a b = py_eq b a.
Proof. unfold py_eq. apply bool_decide_ext. split; congruence. Qed.

Lemma dict_get_None k d : dict_get k d = None ↔ key_norm k ∉ keys d.
Proof.
  induction d as [|[k' p'] d IH]; simpl.
  - split; [intros _; apply not_elem_of_nil | done].
  - rewrite not_elem_of_cons. destruct (py_eq k k') eqn:E.
    + apply py_eq_true in E. split; [done | intros [? _]; done].
    + apply py_eq_false in E. rewrite IH. tauto.
Qed.

Lemma dict_get_Some_in k p d :
  dict_get k d = Some p → ∃ k', (k', p) ∈ d ∧ py_eq k k' = true.
Proof.
  induction d as [|[k' p'] d IH]; simpl; [done |].
  destruct (py_eq k k') eqn:E.
  - intros [= ->]. exists k'. split; [left | done].
  - intros (k'' & Hin & Hk)%IH. exists k''. split; [by right | done].
Qed.

Lemma keys_set_present k p q d :
  dict_get k d = Some q → keys (dict_set k p d) = keys d.
Proof.
  induction d as [|[k' p'] d IH]; simpl; [done |].
  destruct (py_eq k k'); simpl; [done |]. intros H. by rewrite IH.
Qed.

Lemma keys_set_absent k p d :
  dict_get k d = None → keys (dict_set k p d) = keys d ++ [key_norm k].
Proof.
  induction d as [|[k' p'] d IH]; simpl; [done |].
  destruct (py_eq k k'); simpl; [done |]. intros H. by rewrite IH.
Qed.

Lemma dict_set_entries k p d entry :
  entry ∈ dict_set k p d → entry ∈ d ∨ (snd entry = p ∧ py_eq k (fst entry) = true).
Proof.
  induction d as [|[k' p'] d IH]; simpl.
  - intros ->%list_elem_of_singleton. right. split; [done | apply py_eq_refl].
  - destruct (py_eq k k') eqn:E.
    + intros [-> | H]%elem_of_cons; [by right | left; by right].
    + intros [-> | H]%elem_of_cons; [left; by left |].
      destruct (IH H) as [? | ?]; [left; by right | by right].
Qed.

Lemma dict_del_sublist k d : sublist (dict_del k d) d.
Proof.
  induction d as [|[k' p'] d IH]; simpl; [constructor |].
  destruct (py_eq k k'); by constructor.
Qed.

Lemma dict_del_absent k d : dict_get k d = None → dict_del k d = d.
Proof.
  induction d as [|[k' p'] d IH]; simpl; [done |].
  destruct (py_eq k k'); [done |]. intros H. by rewrite IH.
Qed.

Lemma dict_del_set_absent k p d :
  dict_get k d = None → dict_del k (dict_set k p d) = d.
Proof.
  induction d as [|[k' p'] d IH]; simpl.
  - by rewrite py_eq_refl.
  - destruct (py_eq k k') eqn:E; simpl; [done |]. rewrite E.
    intros H. by rewrite IH.
Qed.

Lemma dict_get_set_ne k k' p d :
  py_eq k k' = false → dict_get k' (dict_set k p d) = dict_get k' d.
Proof.
  intros Hne. induction d as [|[k'' p''] d IH]; simpl.
  - rewrite py_eq_sym. by rewrite Hne.
  - destruct (py_eq k k'') eqn:E; simpl; [| by rewrite IH].
    assert (py_eq k' k'' = false) as ->; [| done].
    apply py_eq_false. apply py_eq_false in Hne. apply py_eq_true in E. congruence.
Qed.

Lemma dict_get_del_ne k k' d :
  py_eq k k' = false → dict_get k' (dict_del k d) = dict_get k' d.
Proof.
  intros Hne. induction d as [|[k'' p''] d IH]; simpl; [done |].
  destruct (py_eq k k'') eqn:E; simpl; [| by rewrite IH].
  assert (py_eq k' k'' = false) as ->; [| done].
  apply py_eq_false. apply py_eq_false in Hne. apply py_eq_true in E. congruence.
Qed.

Lemma dict_del_length k p d :
  NoDup (keys d) → dict_get k d = Some p → S (length (dict_del k d)) = length d.
Proof.
  induction d as [|[k' p'] d IH]; simpl; [done |].
  intros [Hnotin Hnd]%NoDup_cons. destruct (py_eq k k') eqn:E.
  - intros _. f_equal. f_equal. apply dict_del_absent. apply dict_get_None.
    apply py_eq_true in E. by rewrite E.
  - intros H. simpl. f_equal. by apply IH.
Qed.

Lemma registry_ok_set p d :
  accepted p = true → registry_ok d → registry_ok (dict_set (voting_message_id p) p d).
Proof.
  intros Hp [Hnd Hall]. split.
  - destruct (dict_get (voting_message_id p) d) as [q|] eqn:E.
    + by rewrite (keys_set_present _ _ _ _ E).
    + rewrite (keys_set_absent _ _ _ E). apply NoDup_app. split; [done |].
      split; [| apply NoDup_singleton].
      intros x Hx ->%list_elem_of_singleton. by apply dict_get_None in E.
  - apply Forall_forall. intros entry [Hin | [Hsnd Hk]]%dict_set_entries.
    + by apply (proj1 (Forall_forall _ _) Hall).
    + rewrite Hsnd. split; [by rewrite py_eq_sym | done].
Qed.

Lemma keys_del_sublist k d : sublist (keys (dict_del k d)) (keys d).
Proof.
  induction d as [|[k' p'] d IH]; simpl; [constructor |].
  destruct (py_eq k k'); simpl; by constructor.
Qed.

Lemma registry_ok_del k d : registry_ok d → registry_ok (dict_del k d).
Proof.
  intros [Hnd Hall]. split.
  - eapply sublist_NoDup; [exact Hnd | apply keys_del_sublist].
  - apply Forall_forall. intros entry Hin.
    apply (proj1 (Forall_forall _ _) Hall).
    eapply elem_of_sublist; [exact Hin | apply dict_del_sublist].
Qed.

(** What each function leaves in [proposals], whatever its outcome. *)

Lemma add_proposal_proposals p s :
  proposals (snd (add_proposal p s)) =
    if accepted p then dict_set (voting_message_id p) p (proposals s) else proposals s.
Proof.
  destruct (accepted p) eqn:Hp.
  - by rewrite add_proposal_accepted.
  - by destruct (add_proposal_rejected p s Hp) as (msg & arg & ->).
Qed.

Lemma add_proposal_db_proposals p db s :
  proposals (snd (add_proposal_db p db s)) = proposals (snd (add_proposal p s)).
Proof.
  unfold add_proposal_db. unfold bind at 1.
  destruct (add_proposal p s) as [[[]|e] s1]; [| done]. simpl.
  destruct (db_truthy db); [| done]. run.
  by destruct (add_raises db p).
Qed.

Lemma remove_proposal_proposals k db s :
  proposals (snd (remove_proposal k db s)) = proposals s ∨
  proposals (snd (remove_proposal k db s)) = dict_del k (proposals s).
Proof.
  unfold remove_proposal, lookup. destruct (hashable k); run; [| by left].
  destruct (dict_get k (proposals s)) as [p|]; simpl; [| by left].
  destruct (delete_raises db p); simpl; [by left | by right].
Qed.

Lemma get_proposal_proposals k s : proposals (snd (get_proposal k s)) = proposals s.
Proof.
  unfold get_proposal, lookup. destruct (hashable k); run; [| done].
  by destruct (dict_get k (proposals s)).
Qed.

(** X1. The functions that write to [proposals] keep the registry well
    formed, whether they return or raise: keys stay pairwise different and
    every entry holds a validated proposal filed under its own
    voting-message id. *)
Theorem registry_stays_well_formed (p : Proposals) (k : value) (db : DBUtil) (s : state) :
  registry_ok (proposals s) →
  registry_ok (proposals (snd (add_proposal p s))) ∧
  registry_ok (proposals (snd (add_proposal_db p db s))) ∧
  registry_ok (proposals (snd (remove_proposal k db s))).
Proof.
  intros Hok.
  assert (registry_ok (proposals (snd (add_proposal p s)))) as Hadd.
  { rewrite add_proposal_proposals. destruct (accepted p) eqn:Hp; [| done].
    by apply registry_ok_set. }
  split; [done |]. split; [by rewrite add_proposal_db_proposals |].
  destruct (remove_proposal_proposals k db s) as [-> | ->]; [done |].
  by apply registry_ok_del.
Qed.

Lemma registry_stays_well_formed_witness :
  registry_ok (proposals two_proposals) ∧
  registry_ok (proposals (snd (add_proposal (with_grant 1003 (VInstrumentedList ["<@14>"]))
                                 two_proposals))) ∧
  registry_ok (proposals (snd (remove_proposal (VInt 1001) db_up two_proposals))).
Proof.
  assert (registry_ok (proposals two_proposals)) as Hok.
  { apply (bool_decide_unpack _). by vm_compute. }
  split; [exact Hok |].
  split.
  - exact (proj1 (registry_stays_well_formed
                    (with_grant 1003 (VInstrumentedList ["<@14>"])) (VInt 1001) db_up
                    two_proposals Hok)).
  - exact (proj2 (proj2 (registry_stays_well_formed
                    (with_grant 1003 (VInstrumentedList ["<@14>"])) (VInt 1001) db_up
                    two_proposals Hok))).
Defined.

(** X2. In a well-formed registry [get_proposal] is a read: when it returns
    a proposal, the state is as before, the proposal's own voting-message id
    equals the id asked for, and the proposal passes the validation of
    [add_proposal]. *)
Theorem get_proposal_returns_the_right_entry (k : value) (p : Proposals) (s s' : state) :
  registry_ok (proposals s) →
  get_proposal k s = (Ok p, s') →
  s' = s ∧ py_eq k (voting_message_id p) = true ∧ accepted p = true.
Proof.
  intros [_ Hall]. unfold get_proposal, lookup.
  destruct (hashable k); run; [| done].
  destruct (dict_get k (proposals s)) as [q|] eqn:E; simpl; [| done].
  intros [= -> <-]. split; [done |].
  destruct (dict_get_Some_in _ _ _ E) as (k' & Hin & Hk).
  destruct (proj1 (Forall_forall _ _) Hall _ Hin) as [Hk' Hacc]. simpl in *.
  split; [| done].
  apply py_eq_true. apply py_eq_true in Hk, Hk'. congruence.
Qed.

Lemma get_proposal_returns_the_right_entry_witness :
  get_proposal (VBool true) (snd (add_proposal (grantless 1 []) one_proposal)) =
    (Ok (grantless 1 []), snd (add_proposal (grantless 1 []) one_proposal)) ∧
  py_eq (VBool true) (voting_message_id (grantless 1 [])) = true.
Proof.
  assert (registry_ok (proposals (snd (add_proposal (grantless 1 []) one_proposal))))
    as Hok.
  { apply (bool_decide_unpack _). by vm_compute. }
  split; [reflexivity |].
  exact (proj1 (proj2 (get_proposal_returns_the_right_entry (VBool true)
                         (grantless 1 []) _ _ Hok eq_refl))).
Defined.

Lemma get_proposal_fst k s s' :
  dict_get k (proposals s) = dict_get k (proposals s') →
  fst (get_proposal k s) = fst (get_proposal k s').
Proof.
  intros H. unfold get_proposal, lookup. destruct (hashable k); run; [| done].
  rewrite H. by destruct (dict_get k (proposals s')).
Qed.

(** X3. Inserting or removing a proposal does not change what [get_proposal]
    answers for any other id, whether the insert or the removal returns or
    raises. *)
Theorem other_ids_are_untouched (p : Proposals) (k k' : value) (db : DBUtil) (s : state) :
  (py_eq (voting_message_id p) k' = false →
   fst (get_proposal k' (snd (add_proposal p s))) = fst (get_proposal k' s)) ∧
  (py_eq k k' = false →
   fst (get_proposal k' (snd (remove_proposal k db s))) = fst (get_proposal k' s)).
Proof.
  split; intros Hne; apply get_proposal_fst.
  - rewrite add_proposal_proposals. destruct (accepted p); [| done].
    by apply dict_get_set_ne.
  - destruct (remove_proposal_proposals k db s) as [-> | ->]; [done |].
    by apply dict_get_del_ne.
Qed.

Lemma other_ids_are_untouched_witness :
  fst (get_proposal (VInt 1002)
         (snd (add_proposal (grantless 1003 []) two_proposals))) =
    Ok (grantless 1002 [carol_yes]) ∧
  fst (get_proposal (VInt 1002)
         (snd (remove_proposal (VInt 1001) db_up two_proposals))) =
    Ok (grantless 1002 [carol_yes]).
Proof.
  split.
  - exact (proj1 (other_ids_are_untouched (grantless 1003 []) (VInt 1001) (VInt 1002)
                    db_up two_proposals) eq_refl).
  - exact (proj2 (other_ids_are_untouched (grantless 1003 []) (VInt 1001) (VInt 1002)
                    db_up two_proposals) eq_refl).
Defined.

(** X4. Inserting a proposal under an id that is not registered and then
    removing that id gives back the dictionary as it was, entry for entry
    and in the same order. *)
Theorem insert_then_remove_restores (p : Proposals) (db : DBUtil) (s : state) :
  accepted p = true →
  dict_get (voting_message_id p) (proposals s) = None →
  delete_raises db p = None →
  ∃ s1 s2, add_proposal p s = (Ok tt, s1) ∧
           remove_proposal (voting_message_id p) db s1 = (Ok tt, s2) ∧
           proposals s2 = proposals s.
Proof.
  intros Hp Hfresh Hdel. eexists _, _.
  split; [by apply add_proposal_accepted |].
  split.
  - apply remove_proposal_deletes; [by apply accepted_hashable | | done].
    apply dict_get_set_eq.
  - simpl. by apply dict_del_set_absent.
Qed.

Lemma insert_then_remove_restores_witness :
  ∃ s1 s2, add_proposal (grantless 1003 []) two_proposals = (Ok tt, s1) ∧
           remove_proposal (VInt 1003) db_up s1 = (Ok tt, s2) ∧
           proposals s2 = proposals two_proposals.
Proof.
  exact (insert_then_remove_restores (grantless 1003 []) db_up two_proposals
           eq_refl eq_refl eq_refl).
Defined.

(** X5. [get_proposals_count] goes up by one when a proposal is inserted
    under an id that is not registered, stays the same when [add_proposal]
    or [remove_proposal] raises, and, in a well-formed registry, goes down by
    one when [remove_proposal] returns. *)
Theorem count_follows_inserts_and_removals (p : Proposals) (k : value) (db : DBUtil)
    (s : state) :
  (accepted p = true → dict_get (voting_message_id p) (proposals s) = None →
   get_proposals_count (snd (add_proposal p s)) = S (get_proposals_count s)) ∧
  (∀ e s', add_proposal p s = (Raise e, s') →
           get_proposals_count s' = get_proposals_count s) ∧
  (registry_ok (proposals s) →
   ∀ s', remove_proposal k db s = (Ok tt, s') →
         S (get_proposals_count s') = get_proposals_count s) ∧
  (∀ e s', remove_proposal k db s = (Raise e, s') →
           get_proposals_count s' = get_proposals_count s).
Proof.
  unfold get_proposals_count. split; [| split; [| split]].
  - intros Hp Hfresh. rewrite add_proposal_proposals, Hp.
    by apply dict_set_length_absent.
  - intros e s'. destruct (accepted p) eqn:Hp.
    + by rewrite add_proposal_accepted.
    + destruct (add_proposal_rejected p s Hp) as (msg & arg & ->). by intros [= _ <-].
  - intros [Hnd _] s'. unfold remove_proposal, lookup.
    destruct (hashable k); run; [| done].
    destruct (dict_get k (proposals s)) as [q|] eqn:E; simpl; [| done].
    destruct (delete_raises db q); simpl; [done |].
    intros [= <-]. simpl. by eapply dict_del_length.
  - intros e s'. unfold remove_proposal, lookup.
    destruct (hashable k); run; [| by intros [= _ <-]].
    destruct (dict_get k (proposals s)) as [q|] eqn:E; simpl; [| by intros [= _ <-]].
    destruct (delete_raises db q); simpl; [by intros [= _ <-] | done].
Qed.

Lemma count_follows_inserts_and_removals_witness :
  get_proposals_count two_proposals = 2%nat ∧
  get_proposals_count (snd (add_proposal (grantless 1003 []) two_proposals)) = 3%nat ∧
  get_proposals_count (snd (remove_proposal (VInt 1001) db_up two_proposals)) = 1%nat ∧
  get_proposals_count (snd (remove_proposal (VInt 1001) db_down two_proposals)) = 2%nat.
Proof.
  pose proof (count_follows_inserts_and_removals (grantless 1003 []) (VInt 1001) db_up
                two_proposals) as (Hadd & _ & Hrem & _).
  pose proof (count_follows_inserts_and_removals (grantless 1003 []) (VInt 1001) db_down
                two_proposals) as (_ & _ & _ & Hfail).
  assert (registry_ok (proposals two_proposals)) as Hok.
  { apply (bool_decide_unpack _). by vm_compute. }
  split; [reflexivity |].
  split; [exact (Hadd eq_refl eq_refl) |].
  split.
  - apply (f_equal pred (Hrem Hok _ eq_refl)).
  - exact (Hfail _ _ eq_refl).
Defined.

(** X6. [is_relevant_proposal] raises [ValueError] on anything that is not
    an integer and changes nothing; on an integer it returns, changes
    nothing, and answers [True] exactly when [get_proposal] on the same id
    returns a proposal. *)
Theorem is_relevant_agrees_with_get_proposal (k : value) (s : state) :
  (is_int k = false →
   is_relevant_proposal k s =
     (Raise (ValueError "voting_message_id should be an int" k), s)) ∧
  (is_int k = true →
   ∃ b, is_relevant_proposal k s = (Ok b, s) ∧
        (b = true ↔ ∃ p, get_proposal k s = (Ok p, s))).
Proof.
  unfold is_relevant_proposal, get_proposal, lookup. split; intros Hk.
  - unfold check, bind. by rewrite Hk.
  - rewrite (is_int_hashable _ Hk). unfold check, bind. rewrite Hk. run.
    eexists. split; [reflexivity |].
    destruct (dict_get k (proposals s)) as [p|]; simpl.
    + split; [eauto | done].
    + split; [done | by intros [p [=]]].
Qed.

Lemma is_relevant_agrees_with_get_proposal_witness :
  is_relevant_proposal (VStr "1001") one_proposal =
    (Raise (ValueError "voting_message_id should be an int" (VStr "1001")), one_proposal) ∧
  is_relevant_proposal (VInt 1001) one_proposal = (Ok true, one_proposal) ∧
  is_relevant_proposal (VInt 7) one_proposal = (Ok false, one_proposal).
Proof.
  split; [| split].
  - exact (proj1 (is_relevant_agrees_with_get_proposal (VStr "1001") one_proposal)
             eq_refl).
  - destruct (proj2 (is_relevant_agrees_with_get_proposal (VInt 1001) one_proposal)
                eq_refl) as (b & Hb & Hiff).
    assert (b = true) as <- by (apply Hiff; eexists; reflexivity).
    exact Hb.
  - destruct (proj2 (is_relevant_agrees_with_get_proposal (VInt 7) one_proposal)
                eq_refl) as (b & Hb & Hiff).
    destruct b; [| exact Hb].
    destruct (proj1 Hiff eq_refl) as [p Hp]. discriminate Hp.
Defined.

Lemma first_initiated_by_spec message_id' d :
  match first_initiated_by message_id' d with
  | Some p =>
      ∃ before k after,
        d = before ++ (k, p) :: after ∧
        initiated_by message_id' p = true ∧
        Forall (λ entry, initiated_by message_id' (snd entry) = false) before
  | None => Forall (λ entry, initiated_by message_id' (snd entry) = false) d
  end.
Proof.
  induction d as [|[k p] d IH]; simpl; [constructor |].
  fold (initiated_by message_id' p).
  destruct (initiated_by message_id' p) eqn:E.
  - by exists [], k, d.
  - destruct (first_initiated_by message_id' d) as [q|].
    + destruct IH as (before & k' & after & -> & Hq & Hbefore).
      exists ((k, p) :: before), k', after. split; [done |]. split; [done |].
      by constructor.
    + by constructor.
Qed.

(** X7. [get_proposal_initiated_by] returns the first registered proposal,
    in insertion order, whose [message_id] or [bot_response_message_id]
    equals the given id; it returns [None] exactly when no registered
    proposal has that id in either field (in particular on an empty
    registry). *)
Theorem initiated_by_is_the_first_match (message_id' : value) (s : state) :
  match get_proposal_initiated_by message_id' s with
  | Some p =>
      ∃ before k after,
        proposals s = before ++ (k, p) :: after ∧
        (py_equal (message_id p) message_id' = true ∨
         py_equal (bot_response_message_id p) message_id' = true) ∧
        Forall (λ entry, py_equal (message_id (snd entry)) message_id' = false ∧
                         py_equal (bot_response_message_id (snd entry)) message_id' = false)
               before
  | None =>
      Forall (λ entry, py_equal (message_id (snd entry)) message_id' = false ∧
                       py_equal (bot_response_message_id (snd entry)) message_id' = false)
             (proposals s)
  end.
Proof.
  assert (∀ l : dict,
            Forall (λ entry, initiated_by message_id' (snd entry) = false) l →
            Forall (λ entry, py_equal (message_id (snd entry)) message_id' = false ∧
                             py_equal (bot_response_message_id (snd entry)) message_id' = false)
                   l) as Hweak.
  { intros l Hl. eapply Forall_impl; [exact Hl |]. intros entry. unfold initiated_by.
    by intros [? ?]%orb_false_elim. }
  unfold get_proposal_initiated_by.
  pose proof (first_initiated_by_spec message_id' (proposals s)) as H.
  destruct (proposals s) as [|entry d] eqn:E; [constructor |].
  destruct (first_initiated_by message_id' (entry :: d)) as [p|].
  - destruct H as (before & k & after & Hd & Hp & Hbefore).
    exists before, k, after. split; [done |]. split; [| by apply Hweak].
    unfold initiated_by in Hp. by apply orb_prop in Hp.
  - by apply Hweak.
Qed.



End registry_more_props.

(** * Further properties of the free-funding transaction *)

Module transact_more_props.
Import transact transact_spec transact_more_spec.

(** X9. Once the validator has accepted, the debit is never taken back:
    whatever raises afterwards (the save, the grant message, the edit, the
    history item, the reaction), the author's balance at the end of
    [send_transaction] is the balance the run started from minus
    [amount * len(mentions)]. *)
Theorem debit_is_never_rolled_back (const : Const) (env : Env) (ctx : Context)
    (original_message : Message) (mentions : list string) (amount : float)
    (description : string) (s : state) :
  let author_mention := author (message ctx) in
  let b := resolved_balance const author_mention s in
  (balances s !! author_mention = None → raises env at_db_add = None) →
  validate_free_transaction env original_message author_mention b mentions amount
    description = Ok true →
  balances (snd (send_transaction const env ctx original_message mentions amount
                   description s)) !! author_mention
    = Some (PrimFloat.sub b (total_amount amount mentions)).
Proof.
  intros author_mention b Hadd Hval.
  unfold send_transaction. fold author_mention.
  unfold b, resolved_balance, total_amount in *. run_tx.
  destruct (balances s !! author_mention) as [b0|] eqn:Hb; simpl in *;
    [clear Hadd | rewrite (Hadd eq_refl); unfold modify; simpl];
    rewrite Hval; simpl; case_sites; apply lookup_insert_eq.
Qed.

Lemma debit_is_never_rolled_back_witness :
  fst history_down_run = Raise (ExternalError "database is locked") ∧
  balances (snd history_down_run) !! "<@1>" = Some 80%float.
Proof.
  split; [by vm_compute |].
  exact (debit_is_never_rolled_back const0 (env_with history_down tips_message)
           tips_ctx tips_message ["<@2>"] 20%float "thanks" (with_balance 100%float)
           (λ _, eq_refl) eq_refl).
Defined.

(** X10. [send_transaction] writes a history record only at the end of the
    full sequence: whenever the history differs after a run, exactly one
    record was appended, for [amount * len(mentions)], and before it the run
    saved the debit, sent the grant message carrying the recipients joined
    by spaces, and suppressed its embeds, in this order. *)
Theorem history_only_after_grant (const : Const) (env : Env) (ctx : Context)
    (original_message : Message) (mentions : list string) (amount : float)
    (description : string) (s : state) :
  let author_mention := author (message ctx) in
  let s' := snd (send_transaction const env ctx original_message mentions amount
                   description s) in
  history s' ≠ history s →
  ∃ t g rest,
    history s' = history s ++ [t] ∧
    tx_author t = author_mention ∧
    tx_amount t = total_amount amount mentions ∧
    tx_mentions t = join (FREE_FUNDING_MENTIONS_COLUMN_SEPARATOR const) mentions ∧
    events_since (length (trace s)) s' =
      creation_log author_mention s ++
      DbSave :: ChannelSend (GRANT_APPLY_CHANNEL_ID const) (Formatted g) ::
      EditSuppress (GRANT_APPLY_CHANNEL_ID const) :: rest ∧
    gm_mentions g = join " " mentions.
Proof.
  intros author_mention s'. subst s'.
  unfold send_transaction, creation_log. fold author_mention. run_tx.
  destruct (balances s !! author_mention) as [b0|] eqn:Hb; simpl.
  - destruct (validate_free_transaction env original_message author_mention b0
                mentions amount description) as [[]|e]; simpl; case_sites;
      try done; intros _; eexists _, _, _; repeat split; first [by since | done].
  - destruct (raises env at_db_add); unfold raise, modify; simpl; [done |].
    destruct (validate_free_transaction env original_message author_mention
                (FREE_FUNDING_LIMIT_PERSON_PER_SEASON const)
                mentions amount description) as [[]|e]; simpl; case_sites;
      try done; intros _; eexists _, _, _; repeat split; first [by since | done].
Qed.

Lemma history_only_after_grant_witness :
  ∃ t rest,
    history (snd thanks_run) = [t] ∧
    tx_amount t = 20%float ∧
    tx_mentions t = "<@2>" ∧
    trace (snd thanks_run) =
      DbSave :: ChannelSend 71
                  (Formatted {| gm_prefix := "!"; gm_grant_command := "grant";
                                gm_mentions := "<@2>"; gm_amount := "20";
                                gm_description := "thanks"; gm_author := "<@1>";
                                gm_balance := "20";
                                gm_tips_url := "https://discord.test/channels/1/70/900" |})
      :: EditSuppress 71 :: rest.
Proof.
  assert (history (snd thanks_run) ≠ history (with_balance 100%float)) as Hne
    by (by vm_compute).
  destruct (history_only_after_grant const0 (env_with nothing_fails tips_message)
              tips_ctx tips_message ["<@2>"] 20%float "thanks"
              (with_balance 100%float) Hne)
    as (t & g & rest & Hhist & _ & Hamount & Hment & Hev & Hg).
  exists t, rest. split; [exact Hhist |]. split; [exact Hamount |].
  split; [exact Hment |].
  vm_compute in Hev. vm_compute. rewrite Hev. by injection Hev as <- _.
Defined.

(** What a run of [send_transaction] may change, whatever its outcome. *)
Lemma send_transaction_footprint (const : Const) (env : Env) (ctx : Context)
    (original_message : Message) (mentions : list string) (amount : float)
    (description : string) (s : state) :
  let author_mention := author (message ctx) in
  let s' := snd (send_transaction const env ctx original_message mentions amount
                   description s) in
  (∀ other, other ≠ author_mention → balances s' !! other = balances s !! other) ∧
  (history s' = history s ∨
   ∃ t, history s' = history s ++ [t] ∧ tx_author t = author_mention).
Proof.
  intros author_mention s'. subst s'.
  unfold send_transaction. fold author_mention. run_tx.
  destruct (balances s !! author_mention) as [b0|] eqn:Hb; simpl.
  - destruct (validate_free_transaction env original_message author_mention b0
                mentions amount description) as [[]|e]; simpl; case_sites;
      (split; [intros other Hne; by rewrite ?lookup_insert_ne | eauto]).
  - destruct (raises env at_db_add); unfold raise, modify; simpl; [eauto |].
    destruct (validate_free_transaction env original_message author_mention
                (FREE_FUNDING_LIMIT_PERSON_PER_SEASON const)
                mentions amount description) as [[]|e]; simpl; case_sites;
      (split; [intros other Hne; by rewrite ?lookup_insert_ne | eauto]).
Qed.


(** X12. A funding command can change the author's balance row and nothing
    else in the ledger: every other member's balance is as before, and the
    history is either unchanged or longer by exactly one record, whose
    author is the sender of the command. *)
Theorem command_touches_only_the_author (const : Const) (env : Env) (ctx : Context)
    (args : list string) (s : state) :
  let s' := snd (free_funding_transact_command const env ctx args s) in
  (∀ other, other ≠ author (message ctx) →
            balances s' !! other = balances s !! other) ∧
  (history s' = history s ∨
   ∃ t, history s' = history s ++ [t] ∧ tx_author t = author (message ctx)).
Proof.
  intros s'. subst s'.
  destruct (free_funding_transact_command const env ctx args s) as [r s'] eqn:Hrun.
  simpl. unfold free_funding_transact_command in Hrun.
  unfold try_except at 1 in Hrun.
  match type of Hrun with
  | context [match ?body s with _ => _ end] =>
      assert ((∀ other, other ≠ author (message ctx) →
                 balances (snd (body s)) !! other = balances s !! other) ∧
              (history (snd (body s)) = history s ∨
               ∃ t, history (snd (body s)) = history s ++ [t] ∧
                    tx_author t = author (message ctx))) as Hbody;
      [| destruct (body s) as [[[]|e] s1];
         [by injection Hrun as _ <- |];
         run_tx in Hrun; repeat case_site Hrun; by injection Hrun as _ <-]
  end.
  clear Hrun. unfold reject. run_tx.
  destruct args as [|a1 [|a2 [|a3 args]]]; simpl;
    command_cases; case_sites; eauto.
  all: match goal with
       | |- context [send_transaction ?c ?e ?x ?m ?ms ?a ?d ?st] =>
           exact (send_transaction_footprint c e x m ms a d st)
       end.
Qed.

(** X13. The flag file, a recovery in progress and a refused role stop the
    command before its arguments are looked at, in this order of precedence:
    whatever the arguments, the mentions and the balance, the ledger is
    unchanged, and when the platform calls return the only effects are the
    reply belonging to the first check that failed, the failure reaction and
    an info log. *)
Theorem closed_gate_stops_the_command (const : Const) (env : Env) (ctx : Context)
    (args : list string) (original_message : Message) (s : state)
    (reply log_message : string) :
  fetch_message env (id (message ctx)) = Ok original_message →
  closed_gate const env ctx = Some (reply, log_message) →
  let s' := snd (free_funding_transact_command const env ctx args s) in
  balances s' = balances s ∧
  history s' = history s ∧
  (all_calls_return env →
   events_since (length (trace s)) s' =
     [Log Debug msg_received;
      Reply (id original_message) reply;
      AddReaction (id (message ctx)) (REACTION_ON_TRANSACTION_FAILED const);
      Log Info log_message]).
Proof.
  intros Hfetch Hgate s'. subst s'.
  unfold free_funding_transact_command, reject, closed_gate in *. run_tx.
  rewrite Hfetch. simpl.
  destruct (flag_file_exists env); simpl.
  { injection Hgate as <- <-. split; [by case_sites |]. split; [by case_sites |].
    intros Hall. rewrite !Hall. unfold modify. simpl. by since. }
  destruct (is_recovery env); simpl.
  { injection Hgate as <- <-. split; [by case_sites |]. split; [by case_sites |].
    intros Hall. rewrite !Hall. unfold modify. simpl. by since. }
  destruct (validate_roles env (author (message ctx))) as [[]|e]; try done. simpl.
  injection Hgate as <- <-. split; [by case_sites |]. split; [by case_sites |].
  intros Hall. rewrite !Hall. unfold modify. simpl. by since.
Qed.

Lemma closed_gate_stops_the_command_witness :
  balances (snd paused_run) = balances (with_balance 100%float) ∧
  history (snd paused_run) = [] ∧
  trace (snd paused_run) =
    [Log Debug msg_received; Reply 900 "Free funding is paused.";
     AddReaction 900 ":x:";
     Log Info "Rejecting the transaction from %s because a stopcock file is detected."].
Proof.
  destruct (closed_gate_stops_the_command const0 paused_env tips_ctx
              ["<@2>"; "20"; "thanks"] tips_message (with_balance 100%float) _ _
              eq_refl eq_refl) as (Hbal & Hhist & Hev).
  split; [exact Hbal |]. split; [exact Hhist |].
  exact (Hev (λ _, eq_refl)).
Defined.

(** X14. Once the three checks have let the command through, the number of
    arguments decides before anything is parsed: without arguments the
    balance display is called, with one or two the command is answered as
    badly formed.  Neither case looks at the mentions or at the pattern, and
    neither changes the ledger. *)
Theorem argument_count_decides_first (const : Const) (env : Env) (ctx : Context)
    (args : list string) (original_message : Message) (s : state) :
  fetch_message env (id (message ctx)) = Ok original_message →
  flag_file_exists env = false →
  is_recovery env = false →
  validate_roles env (author (message ctx)) = Ok true →
  all_calls_return env →
  (length args < 3)%nat →
  let s' := snd (free_funding_transact_command const env ctx args s) in
  balances s' = balances s ∧
  history s' = history s ∧
  events_since (length (trace s)) s' =
    Log Debug msg_received ::
    (if Nat.eqb (length args) 0
     then [SendFreeFundingBalance (id (message ctx))]
     else [Reply (id original_message)
             (ERROR_MESSAGE_FREE_FUNDING_INVALID_COMMAND_FORMAT const);
           AddReaction (id (message ctx)) (REACTION_ON_TRANSACTION_FAILED const);
           Log Info msg_invalid_format]).
Proof.
  intros Hfetch Hflag Hrec Hroles Hall Hargs s'. subst s'.
  unfold free_funding_transact_command, reject. run_tx.
  rewrite Hfetch, Hflag, Hrec, Hroles. simpl.
  destruct args as [|a1 [|a2 [|a3 args]]]; simpl in *; try lia;
    rewrite !Hall; unfold modify; simpl; repeat split; by since.
Qed.

Lemma argument_count_decides_first_witness :
  balances (snd short_run) = balances (with_balance 100%float) ∧
  history (snd short_run) = [] ∧
  trace (snd short_run) =
    [Log Debug msg_received; Reply 900 "Invalid command format.";
     AddReaction 900 ":x:"; Log Info msg_invalid_format].
Proof.
  exact (argument_count_decides_first const0 (env_with nothing_fails tips_message)
           tips_ctx ["<@2>"] tips_message (with_balance 100%float)
           eq_refl eq_refl eq_refl eq_refl (λ _, eq_refl) (le_n_S _ _ (le_S _ _ (le_n 1)))).
Defined.

(** X15. An amount that the pattern lets through but [float] refuses (for
    instance [1.2.3]) ends in the outer handler: no transaction is started
    and the ledger is unchanged, the author is told that an unexpected error
    occurred (or, when that reply fails, the failure to reply is logged),
    and the error is logged at critical level. *)
Theorem unparsable_amount_is_an_unexpected_error (const : Const) (env : Env)
    (ctx : Context) (args : list string) (original_message : Message) (s : state)
    (group1 group2 group3 : string) (e : exn) :
  fetch_message env (id (message ctx)) = Ok original_message →
  flag_file_exists env = false →
  is_recovery env = false →
  validate_roles env (author (message ctx)) = Ok true →
  (3 ≤ length args)%nat →
  mentions original_message ≠ [] →
  re_search env (command_pattern const) (content (message ctx))
    = Some (group1, group2, group3) →
  float_of_str env group2 = Raise e →
  let s' := snd (free_funding_transact_command const env ctx args s) in
  balances s' = balances s ∧
  history s' = history s ∧
  events_since (length (trace s)) s' =
    [Log Debug msg_received;
     match raises env at_unexpected_reply with
     | None => Reply (id (message ctx))
                 (String.append "An unexpected error occurred during transaction. cc "
                    (RESPONSIBLE_MENTION const))
     | Some _ => Log Critical msg_unable_to_reply
     end;
     Log Critical msg_unexpected].
Proof.
  intros Hfetch Hflag Hrec Hroles Hargs Hment Hre Hfloat s'. subst s'.
  unfold free_funding_transact_command, reject. run_tx.
  rewrite Hfetch, Hflag, Hrec, Hroles. simpl.
  destruct args as [|a1 [|a2 [|a3 args]]]; simpl in Hargs; try lia. simpl.
  destruct (mentions original_message) as [|m ms]; [done |]. simpl.
  rewrite Hre, Hfloat. simpl.
  destruct (raises env at_unexpected_reply); unfold raise, modify; simpl;
    repeat split; by since.
Qed.

Lemma unparsable_amount_is_an_unexpected_error_witness :
  balances (snd dotted_run) = balances (with_balance 100%float) ∧
  history (snd dotted_run) = [] ∧
  trace (snd dotted_run) =
    [Log Debug msg_received;
     Reply 902 "An unexpected error occurred during transaction. cc <@9>";
     Log Critical msg_unexpected].
Proof.
  assert (mentions dotted_message ≠ []) as Hment by done.
  exact (unparsable_amount_is_an_unexpected_error const0 dotted_env dotted_ctx
           ["<@2>"; "1.2.3"; "thanks"] dotted_message (with_balance 100%float)
           "<@2> " "1.2.3" "thanks" _
           eq_refl eq_refl eq_refl eq_refl (le_n 3) Hment eq_refl eq_refl).
Defined.



(** ** [split] and [join] *)









Example split_two_mentions :
  split "<@2>  <@3> " = ["<@2>"; "<@3>"] ∧ join " " ["<@2>"; "<@3>"] = "<@2> <@3>".
Proof. by vm_compute. Qed.

End transact_more_props.
